(** * Knowledge-base search engine: the upload / chat / status / reset service

    A shallow embedding of [server/main.py] (the HTTP handlers) and
    [server/my_rag.py] (the agent [MyRAGAgent]) and the properties of their
    behaviour.

    Conventions of the embedding.
    - A Python [str] is a [string]; its characters are read as the code points
      below 256, which is where [lower], [strip] and [endswith] are given
      here exactly as Python computes them.
    - The source spells the special names with single underscores
      ([_init_], [_name_], [_file_]); they are read as the constructor, the
      module name and the module path.
    - The files on disk are a map from absolute paths in normal form to
      files and directories; the directory of the module is such a path.
    - An exception is a value of [exn]; a block that may raise returns
      [exn + A].  Mutable objects (the global agent, the files on disk) are
      passed explicitly and returned updated.
    - Logging has no effect on what the handlers return and is left out. *)

From Stdlib Require Import ZArith Ascii String List Lia.
From stdpp Require Import gmap strings list fin_maps pretty.

Local Open Scope Z_scope.

(** ** Python string methods *)

Module Py.

(** [c.isspace()] on the code points below 256. *)
Definition isspace (c : ascii) : bool :=
  let n := N_of_ascii c in
  ((9 <=? n) && (n <=? 13) || (28 <=? n) && (n <=? 32)
   || (n =? 133) || (n =? 160))%N.

(** [c.lower()] on the code points below 256: the letters A-Z and the
    accented capitals of Latin-1 (the multiplication sign 215 has no case). *)
Definition lower_char (c : ascii) : ascii :=
  let n := N_of_ascii c in
  if ((65 <=? n) && (n <=? 90)
      || (192 <=? n) && (n <=? 222) && negb (n =? 215))%N
  then ascii_of_N (n + 32) else c.

Fixpoint lower (s : string) : string :=
  match s with
  | EmptyString => EmptyString
  | String c s' => String (lower_char c) (lower s')
  end.

(** [s.endswith(suffix)]: some tail of [s] is [suffix]. *)
Fixpoint endswith (s suffix : string) : bool :=
  if String.eqb s suffix then true
  else match s with
       | EmptyString => false
       | String _ s' => endswith s' suffix
       end.

(** [s.startswith(p)]. *)
Fixpoint startswith (s p : string) : bool :=
  match p, s with
  | EmptyString, _ => true
  | String a p', String b s' => Ascii.eqb a b && startswith s' p'
  | String _ _, EmptyString => false
  end.

Fixpoint lstrip (s : string) : string :=
  match s with
  | EmptyString => EmptyString
  | String c s' => if isspace c then lstrip s' else s
  end.

Fixpoint rstrip (s : string) : string :=
  match s with
  | EmptyString => EmptyString
  | String c s' =>
      match rstrip s' with
      | EmptyString => if isspace c then EmptyString else String c EmptyString
      | r => String c r
      end
  end.

(** [s.strip()]. *)
Definition strip (s : string) : string := rstrip (lstrip s).

(** Truth value of a string: [not s] holds of the empty string only. *)
Definition truthy (s : string) : bool :=
  match s with EmptyString => false | String _ _ => true end.

(** [s[:n]]. *)
Fixpoint take_str (n : nat) (s : string) : string :=
  match n, s with
  | S n', String c s' => String c (take_str n' s')
  | _, _ => EmptyString
  end.

(** [sep.join(parts)]. *)
Fixpoint join (sep : string) (parts : list string) : string :=
  match parts with
  | [] => EmptyString
  | [p] => p
  | p :: rest => p +:+ sep +:+ join sep rest
  end.

(** [l[-n:]] for [n > 0]: the last [n] elements, all of them when there are
    fewer. *)
Definition last_n {A} (n : nat) (l : list A) : list A :=
  drop (length l - n)%nat l.

(** [enumerate(l)]. *)
Definition enumerate {A} (l : list A) : list (nat * A) :=
  zip (seq 0 (length l)) l.

End Py.

(** The test both handlers and the agent apply to a name:
    [name.lower().endswith('.pdf')]. *)
Definition is_pdf (name : string) : bool :=
  Py.endswith (Py.lower name) ".pdf".

(** A string that is empty or made of whitespace only. *)
Definition blank (s : string) : Prop :=
  Forall (fun c => Py.isspace c = true) (list_ascii_of_string s).

(** ** Exceptions *)

Inductive exn : Type :=
| HTTPException (status_code : Z) (detail : string)
| ValueError (msg : string)
| EnvironmentError (msg : string)
| OSError (msg : string)
| Exception (msg : string).

(** [str(e)], as f-strings interpolate it.  An [HTTPException] prints as
    its status code and detail. *)
Definition str (e : exn) : string :=
  match e with
  | HTTPException c d => pretty c +:+ ": " +:+ d
  | ValueError m | EnvironmentError m | OSError m | Exception m => m
  end.

Definition is_http (e : exn) : bool :=
  match e with HTTPException _ _ => true | _ => false end.

(** [try: body  except Exception as e: handler(e)]. *)
Definition try_except {A} (body : exn + A) (handler : exn -> exn + A) : exn + A :=
  match body with
  | inl e => handler e
  | inr a => inr a
  end.

(** ** The file system

    Files and directories are kept in a finite map from keys to nodes, the
    key of a node being its absolute path in normal form ('/app/pdfs/a.pdf').
    A path given to the system is resolved to a key as the kernel does it:
    '.', '..' and empty components are followed, and every directory on the
    way has to be there.  Links and permissions are not modelled, and a
    relative path is read from the root: the service forms its paths from
    the absolute path of its module. *)

Inductive node : Type :=
| File (content : list Byte.byte)
| Dir.

Module os.

(** [os.path.join(a, b)] of posixpath. *)
Definition path_join (a b : string) : string :=
  if Py.startswith b "/" then b
  else if negb (Py.truthy a) || Py.endswith a "/" then a +:+ b
  else a +:+ "/" +:+ b.

Fixpoint strip_prefix (p s : string) : option string :=
  match p, s with
  | EmptyString, _ => Some s
  | String a p', String b s' =>
      if Ascii.eqb a b then strip_prefix p' s' else None
  | String _ _, EmptyString => None
  end.

Definition has_sep (s : string) : bool :=
  existsb (Ascii.eqb "/") (list_ascii_of_string s).

(** A name that can stand for an entry of a directory: not empty and
    without a separator. *)
Definition plain (n : string) : bool := Py.truthy n && negb (has_sep n).

(** A component of a path that names an entry, '.' and '..' naming the
    directory itself and the one above it. *)
Definition ordinary (c : string) : bool :=
  plain c && negb (String.eqb c ".") && negb (String.eqb c "..").

(** [p.split("/")]: the components of a path. *)
Fixpoint split (p : string) : list string :=
  match p with
  | EmptyString => [EmptyString]
  | String c p' =>
      if Ascii.eqb c "/" then EmptyString :: split p'
      else match split p' with
           | [] => [String c EmptyString]
           | h :: t => String c h :: t
           end
  end.

(** The key of the node reached from the root through the components [l];
    the root itself has the empty key and no node. *)
Definition of_parts (l : list string) : string :=
  fold_right (fun c acc => "/" +:+ c +:+ acc) "" l.

(** The directory that holds the node of key [k]; the root holds itself. *)
Definition parent (k : string) : string :=
  of_parts (removelast (tail (split k))).

(** The walk of the kernel along the components of path [p], from the
    directory of key [cur]: every component but the last has to name a
    directory; the last one names the node looked for, which need not be
    there. *)
Fixpoint walk (fs : gmap string node) (p cur : string) (comps : list string)
  : exn + string :=
  match comps with
  | [] => inr cur
  | c :: rest =>
      if String.eqb c "" || String.eqb c "." then walk fs p cur rest
      else if String.eqb c ".." then walk fs p (parent cur) rest
      else
        let next := cur +:+ "/" +:+ c in
        match rest with
        | [] => inr next
        | _ :: _ =>
            match fs !! next with
            | Some Dir => walk fs p next rest
            | Some (File _) =>
                inl (OSError ("[Errno 20] Not a directory: '" +:+ p +:+ "'"))
            | None =>
                inl (OSError
                       ("[Errno 2] No such file or directory: '" +:+ p +:+ "'"))
            end
        end
  end.

(** The key of the node that path [p] names.  A path under which the map
    holds a node names that node; any other path is walked from the root. *)
Definition resolve (fs : gmap string node) (p : string) : exn + string :=
  match fs !! p with
  | Some _ => inr p
  | None =>
      if Py.truthy p then walk fs p "" (split p)
      else inl (OSError ("[Errno 2] No such file or directory: '" +:+ p +:+ "'"))
  end.

(** An absolute path in normal form: '/' or '/c1/.../cn' with components
    that name entries. *)
Definition normal (p : string) : bool :=
  String.eqb p "/" ||
  match split p with
  | EmptyString :: c :: l =>
      forallb ordinary (c :: l) && String.eqb (of_parts (c :: l)) p
  | _ => false
  end.

(** [os.path.exists(p)]. *)
Definition path_exists (p : string) (fs : gmap string node) : bool :=
  match resolve fs p with
  | inr k =>
      match fs !! k with
      | Some _ => true
      | None => negb (Py.truthy k)
      end
  | inl _ => false
  end.

(** The name under which path [p] shows in a listing of directory [d],
    when it lies directly in it. *)
Definition entry_name (d p : string) : option string :=
  match strip_prefix (path_join d "") p with
  | Some n => if plain n then Some n else None
  | None => None
  end.

(** [os.listdir(d)], in the order of the map's enumeration (Python promises
    no order). *)
Definition listdir (d : string) (fs : gmap string node) : list string :=
  omap (entry_name d) (map_to_list fs).*1.

(** [os.remove(p)]. *)
Definition remove (p : string) (fs : gmap string node)
  : exn + gmap string node :=
  match resolve fs p with
  | inl e => inl e
  | inr k =>
      match fs !! k with
      | Some (File _) => inr (delete k fs)
      | Some Dir => inl (OSError ("[Errno 21] Is a directory: '" +:+ p +:+ "'"))
      | None =>
          if Py.truthy k
          then inl (OSError
                      ("[Errno 2] No such file or directory: '" +:+ p +:+ "'"))
          else inl (OSError ("[Errno 21] Is a directory: '" +:+ p +:+ "'"))
      end
  end.

(** [with open(p, "wb") as buffer: buffer.write(content)]: the file is
    created in a directory that is there, or written over. *)
Definition write_bytes (p : string) (content : list Byte.byte)
    (fs : gmap string node) : exn + gmap string node :=
  match resolve fs p with
  | inl e => inl e
  | inr k =>
      match fs !! k with
      | Some Dir => inl (OSError ("[Errno 21] Is a directory: '" +:+ p +:+ "'"))
      | Some (File _) => inr (<[k := File content]> fs)
      | None =>
          if Py.truthy k then inr (<[k := File content]> fs)
          else inl (OSError ("[Errno 21] Is a directory: '" +:+ p +:+ "'"))
      end
  end.

(** The directories of [os.makedirs]: those on the way that are missing are
    created; a file on the way stops it. *)
Fixpoint make_from (cur : string) (comps : list string)
    (fs : gmap string node) : gmap string node :=
  match comps with
  | [] => fs
  | c :: rest =>
      if String.eqb c "" || String.eqb c "." then make_from cur rest fs
      else if String.eqb c ".." then make_from (parent cur) rest fs
      else
        let next := cur +:+ "/" +:+ c in
        match fs !! next with
        | Some Dir => make_from next rest fs
        | Some (File _) => fs
        | None => make_from next rest (<[next := Dir]> fs)
        end
  end.

(** [os.makedirs(d, exist_ok=True)], where it does not raise: it does when
    a file stands where a directory is to be. *)
Definition makedirs (d : string) (fs : gmap string node) : gmap string node :=
  make_from "" (split d) fs.

End os.

(** ** The libraries and hosted services the agent calls

    What the PDF parser, the text splitter, the embedding service, the
    vector store's search and the generation service answer is not decided
    by this repository: each request is run against a [World] that gives
    their answers, an exception being one of them. *)

Record Document : Type := {
  page_content : string;
  metadata : list (string * string)
}.

(** An attribute of a Python object as the code probes it with [hasattr]:
    absent, raising on access, or holding a value. *)
Inductive attr : Type :=
| Missing
| Raises (e : exn)
| Value (v : string).

Record GenerateContentResponse : Type := {
  text : attr;
  content : attr;
  repr : string
}.

Record World : Type := {
  (** configuring the SDK and building the model, the embeddings, the store,
      the splitter and the graph: the exception raised, if any *)
  sdk_setup : string -> option exn;
  (** [PyPDFLoader(path).load()] on a file with the given bytes *)
  pdf_loader : string -> list Byte.byte -> exn + list Document;
  (** [text_splitter.split_documents(docs)] *)
  split_documents : list Document -> exn + list Document;
  (** the embedding call inside [vector_store.add_documents] *)
  embed_documents : list Document -> option exn;
  (** [vector_store.similarity_search(question, k)] over the stored chunks *)
  similarity_search : list Document -> string -> nat -> exn + list Document;
  (** [gen_model.generate_content(prompt)] *)
  generate_content : string -> exn + GenerateContentResponse
}.

(** The calls made to the outside while a question is answered. *)
Inductive Event : Type :=
| Enter (node_name : string)
| SimilaritySearch (query : string) (k : nat)
| GenerateContent (prompt : string).

(** A computation that may raise and records the calls it makes. *)
Definition T (A : Type) : Type := (exn + A) * list Event.

Definition tret {A} (a : A) : T A := (inr a, []).

Definition traise {A} (e : exn) : T A := (inl e, []).

Definition tbind {A B} (m : T A) (k : A -> T B) : T B :=
  match m with
  | (inl e, tr) => (inl e, tr)
  | (inr a, tr) => let '(r, tr') := k a in (r, tr ++ tr')
  end.

Notation "'let*' x ':=' m 'in' k" := (tbind m (fun x => k))
  (at level 10, x name, m at level 100, k at level 200).

(** One outside call, recorded. *)
Definition call {A} (ev : Event) (r : exn + A) : T A := (r, [ev]).

(** [try: body  except Exception as e: handler(e)], with the calls of both. *)
Definition ttry {A} (body : T A) (handler : exn -> T A) : T A :=
  match body with
  | (inl e, tr) => let '(r, tr') := handler e in (r, tr ++ tr')
  | ok => ok
  end.

Definition result {A} (m : T A) : exn + A := fst m.

Definition trace {A} (m : T A) : list Event := snd m.

(** ** The agent ([my_rag.py]) *)

(** A chat message; [msg.type] is "human" or "ai". *)
Inductive Message : Type :=
| HumanMessage (content : string)
| AIMessage (content : string).

Definition msg_type (m : Message) : string :=
  match m with HumanMessage _ => "human" | AIMessage _ => "ai" end.

Definition msg_content (m : Message) : string :=
  match m with HumanMessage c | AIMessage c => c end.

(** The agent object.  The vector store is held as the list of chunks added
    to it, oldest first: the store files every chunk it is given under a
    fresh identifier, so adding never replaces one. *)
Record MyRAGAgent : Type := {
  gemini_api_key : string;
  vector_store : list Document;
  chat_history : list Message
}.

Definition set_vector_store (self : MyRAGAgent) (v : list Document) : MyRAGAgent :=
  {| gemini_api_key := gemini_api_key self;
     vector_store := v;
     chat_history := chat_history self |}.

Definition set_chat_history (self : MyRAGAgent) (h : list Message) : MyRAGAgent :=
  {| gemini_api_key := gemini_api_key self;
     vector_store := vector_store self;
     chat_history := h |}.

Definition is_empty {A} (l : list A) : bool :=
  match l with [] => true | _ :: _ => false end.

Definition ebind {A B} (m : exn + A) (k : A -> exn + B) : exn + B :=
  match m with inl e => inl e | inr a => k a end.

Notation "'let?' x ':=' m 'in' k" := (ebind m (fun x => k))
  (at level 10, x name, m at level 100, k at level 200).

Definition raise_if_some (o : option exn) : exn + unit :=
  match o with Some e => inl e | None => inr tt end.

(** [MyRAGAgent(gemini_api_key)]: the constructor. *)
Definition _init_ (w : World) (key : string) : exn + MyRAGAgent :=
  if negb (Py.truthy key)
  then inl (EnvironmentError "GEMINI_API_KEY is required to initialize MyRAGAgent")
  else
    try_except
      (let? _ := raise_if_some (sdk_setup w key) in
       inr {| gemini_api_key := key; vector_store := []; chat_history := [] |})
      (fun e => inl (Exception ("RAG Agent initialization failed: " +:+ str e))).

(** [PyPDFLoader(pdf_path).load()] against the files on disk. *)
Definition load_pdf (w : World) (fs : gmap string node) (pdf_path : string)
  : exn + list Document :=
  match os.resolve fs pdf_path with
  | inr k =>
      match fs !! k with
      | Some (File bytes) => pdf_loader w pdf_path bytes
      | _ =>
          inl (ValueError
                 ("File path " +:+ pdf_path +:+ " is not a valid file or url"))
      end
  | inl _ =>
      inl (ValueError ("File path " +:+ pdf_path +:+ " is not a valid file or url"))
  end.

(** The loop of [load_documents] over [pdf_paths], [docs] being the pages
    gathered so far; every [continue] keeps [docs] as it is. *)
Fixpoint load_pages (w : World) (fs : gmap string node)
    (pdf_paths : list string) (docs : list Document) : list Document :=
  match pdf_paths with
  | [] => docs
  | pdf_path :: rest =>
      let docs' :=
        if negb (os.path_exists pdf_path fs) then docs
        else if negb (is_pdf pdf_path) then docs
        else match load_pdf w fs pdf_path with
             | inr loaded_docs =>
                 if is_empty loaded_docs then docs else docs ++ loaded_docs
             | inl _ => docs
             end
      in load_pages w fs rest docs'
  end.

(** [vector_store.add_documents(all_splits)]: embeds, then stores. *)
Definition add_documents (w : World) (store all_splits : list Document)
  : exn + list Document :=
  let? _ := raise_if_some (embed_documents w all_splits) in
  inr (store ++ all_splits).

(** [self.load_documents(pdf_paths)]; the agent is returned as the call
    leaves it. *)
Definition load_documents (w : World) (fs : gmap string node)
    (self : MyRAGAgent) (pdf_paths : list string) : exn + MyRAGAgent :=
  if is_empty pdf_paths then inr self
  else
    let docs := load_pages w fs pdf_paths [] in
    if is_empty docs then inl (Exception "Failed to load any documents")
    else
      try_except
        (let? all_splits := split_documents w docs in
         if is_empty all_splits
         then inl (Exception "Document splitting resulted in no chunks")
         else
           let? store := add_documents w (vector_store self) all_splits in
           inr (set_vector_store self store))
        (fun e => inl (Exception ("Document processing failed: " +:+ str e))).

(** [self.reset_chat_history()]. *)
Definition reset_chat_history (self : MyRAGAgent) : MyRAGAgent :=
  set_chat_history self [].

(** [self.reset()]: a new, empty store and an empty history. *)
Definition reset (self : MyRAGAgent) : MyRAGAgent :=
  set_chat_history (set_vector_store self []) [].

(** *** The conversation graph *)

(** The state of the graph.  Its four keys carry no reducer: a value
    returned by a node replaces the one held. *)
Record State : Type := {
  messages : list Message;
  question : string;
  context : list Document;
  answer : string
}.

(** One key of the dictionary a node returns. *)
Inductive Assign : Type :=
| SetMessages (v : list Message)
| SetContext (v : list Document)
| SetAnswer (v : string).

Definition assign (st : State) (a : Assign) : State :=
  match a with
  | SetMessages v =>
      {| messages := v; question := question st;
         context := context st; answer := answer st |}
  | SetContext v =>
      {| messages := messages st; question := question st;
         context := v; answer := answer st |}
  | SetAnswer v =>
      {| messages := messages st; question := question st;
         context := context st; answer := v |}
  end.

Definition update (st : State) (u : list Assign) : State :=
  fold_left assign u st.

Definition nl : string := String "010" EmptyString.

(** The node [retrieve]. *)
Definition retrieve (w : World) (self : MyRAGAgent) (state : State)
  : T (list Assign) :=
  ttry
    (let question := question state in
     if negb (Py.truthy question) then tret [SetContext []]
     else
       let* retrieved_docs :=
         call (SimilaritySearch question 4)
              (similarity_search w (vector_store self) question 4) in
       tret [SetContext retrieved_docs])
    (fun _ => tret [SetContext []]).

(** One retrieved document as the prompt shows it. *)
Definition format_doc (entry : nat * Document) : string :=
  let '(i, doc) := entry in
  if (800 <? String.length (page_content doc))%nat
  then "Document " +:+ pretty (i + 1)%nat +:+ ":" +:+ nl
       +:+ Py.take_str 800 (page_content doc) +:+ "..."
  else "Document " +:+ pretty (i + 1)%nat +:+ ":" +:+ nl +:+ page_content doc.

Definition format_message (msg : Message) : string :=
  msg_type msg +:+ ": " +:+ msg_content msg.

(** The prompt [generate] composes from the retrieved documents, the
    conversation so far and the question. *)
Definition prompt_text (context_docs : list Document) (messages : list Message)
    (question : string) : string :=
  let docs_content :=
    if is_empty context_docs then ""
    else Py.join (nl +:+ nl) (format_doc <$> Py.enumerate context_docs) in
  let history_text :=
    if is_empty messages then ""
    else Py.join nl (format_message <$> Py.last_n 10 messages) in
  let context_section :=
    if Py.truthy docs_content
    then "Relevant Information:" +:+ nl +:+ docs_content +:+ nl +:+ nl
    else "" in
  let history_section :=
    if Py.truthy history_text
    then "Recent Conversation:" +:+ nl +:+ history_text +:+ nl +:+ nl
    else "" in
  "You are a helpful AI assistant that answers questions based on provided documents and conversation context."
  +:+ nl +:+ nl
  +:+ context_section +:+ history_section
  +:+ "Current Question: " +:+ question +:+ nl +:+ nl
  +:+ "Instructions:" +:+ nl
  +:+ "- Answer the question clearly and helpfully" +:+ nl
  +:+ "- Use information from the provided documents when relevant" +:+ nl
  +:+ "- If the documents don't contain relevant information, say so clearly" +:+ nl
  +:+ "- Be concise but comprehensive" +:+ nl
  +:+ "- Maintain conversation context when appropriate" +:+ nl +:+ nl
  +:+ "Answer:".

(** The text taken from the service's response: [response.text] when there
    and not empty, else [response.content], else [str(response)]. *)
Definition response_text (response : GenerateContentResponse) : exn + string :=
  let from_content :=
    match content response with
    | Raises e => inl e
    | Value v => if Py.truthy v then inr v else inr (repr response)
    | Missing => inr (repr response)
    end in
  match text response with
  | Raises e => inl e
  | Value v => if Py.truthy v then inr v else from_content
  | Missing => from_content
  end.

Definition error_message : string :=
  "I apologize, but I encountered an error while generating a response. Please try again.".

(** The node [generate]. *)
Definition generate (w : World) (self : MyRAGAgent) (state : State)
  : T (list Assign) :=
  let question := question state in
  ttry
    (let context_docs := context state in
     let messages := messages state in
     let prompt := prompt_text context_docs messages question in
     let* response := call (GenerateContent prompt) (generate_content w prompt) in
     let* gen_text := (response_text response, []) in
     tret [SetAnswer gen_text;
           SetMessages [HumanMessage question; AIMessage gen_text]])
    (fun _ =>
       tret [SetAnswer error_message;
             SetMessages [HumanMessage question; AIMessage error_message]]).

(** The compiled graph: the sequence retrieve, generate, entered at
    [retrieve]. *)
Definition _setup_graph (w : World) (self : MyRAGAgent)
  : list (string * (State -> T (list Assign))) :=
  [("retrieve", retrieve w self); ("generate", generate w self)].

(** [graph.invoke(state, config)]: the nodes run in sequence, each one's
    dictionary written into the state. *)
Fixpoint invoke (graph : list (string * (State -> T (list Assign))))
    (state : State) : T State :=
  match graph with
  | [] => tret state
  | (name, node) :: rest =>
      let* u := (let* _ := call (Enter name) (inr tt) in node state) in
      invoke rest (update state u)
  end.

(** [self.ask(question)]: the answer and the agent as the call leaves it. *)
Definition ask (w : World) (self : MyRAGAgent) (question : string)
  : T (string * MyRAGAgent) :=
  if negb (Py.truthy (Py.strip question))
  then traise (ValueError "Question cannot be empty")
  else
    ttry
      (let state := {| messages := chat_history self;
                       question := Py.strip question;
                       context := [];
                       answer := "" |} in
       let* response := invoke (_setup_graph w self) state in
       let self' :=
         if negb (is_empty (messages response)) then
           let extended := chat_history self ++ messages response in
           if (20 <? length extended)%nat
           then set_chat_history self (Py.last_n 20 extended)
           else set_chat_history self extended
         else self in
       tret (answer response, self'))
      (fun e => traise (Exception ("Failed to generate response: " +:+ str e))).

(** ** The HTTP service ([main.py]) *)

(** [os.path.dirname(_file_)]: the directory of the module, which the
    import system gives as an absolute path in normal form. *)
Record AbsDir : Type := {
  abs_path :> string;
  abs_normal : os.normal abs_path = true
}.

(** The module's globals and the files on disk. *)
Record Server : Type := {
  GEMINI_API_KEY : option string;
  my_rag_agent : option MyRAGAgent;
  module_dir : AbsDir;
  files : gmap string node
}.

(** [pdfs_dir = os.path.join(os.path.dirname(_file_), "pdfs")]. *)
Definition pdfs_dir (s : Server) : string := os.path_join (module_dir s) "pdfs".

Definition set_agent (s : Server) (a : MyRAGAgent) : Server :=
  {| GEMINI_API_KEY := GEMINI_API_KEY s;
     my_rag_agent := Some a;
     module_dir := module_dir s;
     files := files s |}.

Definition set_files (s : Server) (fs : gmap string node) : Server :=
  {| GEMINI_API_KEY := GEMINI_API_KEY s;
     my_rag_agent := my_rag_agent s;
     module_dir := module_dir s;
     files := fs |}.

(** [not GEMINI_API_KEY]: unset or empty. *)
Definition key_value (k : option string) : option string :=
  match k with
  | Some key => if Py.truthy key then Some key else None
  | None => None
  end.

(** Loading the module: the agent is built when the key is set and the
    constructor does not raise, and is [None] otherwise; then the PDFs
    directory is created if it is missing.  (Where a file stands in the way
    of that directory the module does not load, and there is no service.) *)
Definition startup (w : World) (env_key : option string) (dir : AbsDir)
    (fs : gmap string node) : Server :=
  {| GEMINI_API_KEY := env_key;
     my_rag_agent :=
       match key_value env_key with
       | None => None
       | Some key =>
           match _init_ w key with
           | inr agent => Some agent
           | inl _ => None
           end
       end;
     module_dir := dir;
     files := os.makedirs (os.path_join dir "pdfs") fs |}.

(** A handler body: it may raise, and leaves the server as it made it. *)
Definition H (A : Type) : Type := Server -> (exn + A) * Server.

Definition hret {A} (a : A) : H A := fun s => (inr a, s).

Definition hraise {A} (e : exn) : H A := fun s => (inl e, s).

Definition hbind {A B} (m : H A) (k : A -> H B) : H B :=
  fun s => match m s with
           | (inl e, s') => (inl e, s')
           | (inr a, s') => k a s'
           end.

Notation "'let!' x ':=' m 'in' k" := (hbind m (fun x => k))
  (at level 10, x name, m at level 100, k at level 200).

Definition hget : H Server := fun s => (inr s, s).

Definition hput (s' : Server) : H unit := fun _ => (inr tt, s').

Definition hlift {A} (r : exn + A) : H A := fun s => (r, s).

(** [try: body  except Exception as e: raise handler(e)]. *)
Definition htry {A} (body : H A) (handler : exn -> exn) : H A :=
  fun s => match body s with
           | (inl e, s') => (inl (handler e), s')
           | ok => ok
           end.

(** [try: body  except HTTPException: raise  except Exception as e:
    raise handler(e)]. *)
Definition htry_reraising_http {A} (body : H A) (handler : exn -> exn) : H A :=
  fun s => match body s with
           | (inl e, s') => (inl (if is_http e then e else handler e), s')
           | ok => ok
           end.

Record UploadFile : Type := {
  filename : option string;
  file_bytes : list Byte.byte
}.

Record UploadResponse : Type := {
  upload_message : string;
  upload_filename : string;
  upload_status : string
}.

Record ChatResponse : Type := {
  response : string;
  chat_status : string
}.

Record StatusResponse : Type := {
  status : string;
  rag_agent_ready : bool;
  pdfs_directory : string;
  documents_loaded : Z
}.

(** [len(content)]. *)
Definition len (content : list Byte.byte) : Z := Z.of_nat (length content).

Definition max_upload : Z := 50 * 1024 * 1024.

(** [[f for f in names if f.lower().endswith('.pdf')]]. *)
Definition filter_pdf (names : list string) : list string :=
  filter (fun f => is_pdf f = true) names.

Definition len_names (names : list string) : Z := Z.of_nat (length names).

(** [POST /upload-pdf]. *)
Definition upload_pdf (w : World) (file : UploadFile) : H UploadResponse :=
  htry_reraising_http
    (let! s := hget in
     match my_rag_agent s with
     | None =>
         hraise (HTTPException 503
           "RAG Agent is not initialized. Please check server configuration.")
     | Some agent =>
         match filename file with
         | None => hraise (HTTPException 400 "No file provided")
         | Some name =>
             if negb (Py.truthy name)
             then hraise (HTTPException 400 "No file provided")
             else if negb (is_pdf name)
             then hraise (HTTPException 400 "Only PDF files are allowed")
             else
               let content := file_bytes file in
               if max_upload <? len content
               then hraise (HTTPException 413
                      "File too large. Maximum size is 50MB.")
               else
                 let file_path := os.path_join (pdfs_dir s) name in
                 let! fs := hlift (os.write_bytes file_path content (files s)) in
                 let! _ := hput (set_files s fs) in
                 let! agent' := hlift (load_documents w fs agent [file_path]) in
                 let! _ := hput (set_agent (set_files s fs) agent') in
                 hret {| upload_message :=
                           "Successfully uploaded and processed " +:+ name;
                         upload_filename := name;
                         upload_status := "success" |}
         end
     end)
    (fun e => HTTPException 500 ("Internal server error: " +:+ str e)).

(** [POST /chat]. *)
Definition chat (w : World) (message : string) : H ChatResponse :=
  htry_reraising_http
    (let! s := hget in
     match my_rag_agent s with
     | None =>
         hraise (HTTPException 503
           "RAG Agent is not initialized. Please check server configuration.")
     | Some agent =>
         if negb (Py.truthy (Py.strip message))
         then hraise (HTTPException 400 "Message cannot be empty")
         else
           let! answered := hlift (result (ask w agent message)) in
           let! _ := hput (set_agent s (snd answered)) in
           hret {| response := fst answered; chat_status := "success" |}
     end)
    (fun e => HTTPException 500 ("Failed to generate response: " +:+ str e)).

(** [GET /status]. *)
Definition get_status : H StatusResponse :=
  htry
    (let! s := hget in
     let pdf_count := len_names (filter_pdf (os.listdir (pdfs_dir s) (files s))) in
     hret {| status := "running";
             rag_agent_ready :=
               match my_rag_agent s with Some _ => true | None => false end;
             pdfs_directory := pdfs_dir s;
             documents_loaded := pdf_count |})
    (fun e => HTTPException 500 ("Failed to get status: " +:+ str e)).

(** [GET /health]. *)
Definition health_check : H (list (string * string)) :=
  hret [("status", "healthy"); ("service", "RAG PDF Chat API")].

(** The loop of [reset_documents] over the listing of the PDFs directory. *)
Fixpoint remove_pdfs (d : string) (names : list string) : H unit :=
  match names with
  | [] => hret tt
  | name :: rest =>
      let! _ :=
        (if is_pdf name then
           let! s := hget in
           let! fs := hlift (os.remove (os.path_join d name) (files s)) in
           hput (set_files s fs)
         else hret tt) in
      remove_pdfs d rest
  end.

(** [DELETE /reset].  Its single [except Exception] clause takes every
    exception of the body, the HTTP ones included. *)
Definition reset_documents (w : World) : H (list (string * string)) :=
  htry
    (let! s := hget in
     match my_rag_agent s with
     | None => hraise (HTTPException 503 "RAG Agent is not initialized")
     | Some _ =>
         let! _ := remove_pdfs (pdfs_dir s) (os.listdir (pdfs_dir s) (files s)) in
         match key_value (GEMINI_API_KEY s) with
         | None => hraise (HTTPException 503 "GEMINI_API_KEY not available")
         | Some key =>
             let! agent := hlift (_init_ w key) in
             let! s' := hget in
             let! _ := hput (set_agent s' agent) in
             hret [("message", "All documents and chat history have been reset");
                   ("status", "success")]
         end
     end)
    (fun e => HTTPException 500 ("Failed to reset documents: " +:+ str e)).

(** *** Responses *)

(** What the client receives: the body with status 200, or the status code
    and detail of the [HTTPException] raised. *)
Inductive Response (A : Type) : Type :=
| Success (body : A)
| Failure (code : Z) (detail : string).

Arguments Success {A} body.
Arguments Failure {A} code detail.

Definition status_code {A} (r : Response A) : Z :=
  match r with Success _ => 200 | Failure c _ => c end.

(** The framework's answer to what a handler returned or raised; an
    exception that is not an [HTTPException] goes to the handler installed
    for status 500. *)
Definition respond {A} (r : exn + A) : Response A :=
  match r with
  | inr a => Success a
  | inl (HTTPException c d) => Failure c d
  | inl _ => Failure 500 "Please try again later"
  end.

(** One request served: the response and the server after it. *)
Definition serve {A} (handler : H A) (s : Server) : Response A * Server :=
  let '(r, s') := handler s in (respond r, s').

Inductive Request : Type :=
| POST_upload_pdf (file : UploadFile)
| POST_chat (message : string)
| GET_status
| GET_health
| DELETE_reset.

Inductive Body : Type :=
| UploadBody (b : UploadResponse)
| ChatBody (b : ChatResponse)
| StatusBody (b : StatusResponse)
| JsonBody (b : list (string * string)).

Definition fmap_response {A B} (f : A -> B) (r : Response A) : Response B :=
  match r with
  | Success a => Success (f a)
  | Failure c d => Failure c d
  end.

Definition handle (w : World) (req : Request) (s : Server)
  : Response Body * Server :=
  match req with
  | POST_upload_pdf file =>
      let '(r, s') := serve (upload_pdf w file) s in (fmap_response UploadBody r, s')
  | POST_chat message =>
      let '(r, s') := serve (chat w message) s in (fmap_response ChatBody r, s')
  | GET_status =>
      let '(r, s') := serve get_status s in (fmap_response StatusBody r, s')
  | GET_health =>
      let '(r, s') := serve health_check s in (fmap_response JsonBody r, s')
  | DELETE_reset =>
      let '(r, s') := serve (reset_documents w) s in (fmap_response JsonBody r, s')
  end.

(** The server after a sequence of requests, each met by its own world. *)
Fixpoint run (reqs : list (World * Request)) (s : Server) : Server :=
  match reqs with
  | [] => s
  | (w, req) :: rest => run rest (snd (handle w req s))
  end.

(** ** Notions the properties are stated with *)

(** The context the retrieve step leaves for a question: what the search
    found, and nothing when the search raised. *)
Definition retrieved (w : World) (self : MyRAGAgent) (q : string) : list Document :=
  match similarity_search w (vector_store self) q 4 with
  | inr docs => docs
  | inl _ => []
  end.

(** The text the generate step answers with for a prompt: the service's
    text, and the fixed apology when the call or the reading of its
    response raised. *)
Definition generated (w : World) (prompt : string) : string :=
  match generate_content w prompt with
  | inr response =>
      match response_text response with
      | inr gen_text => gen_text
      | inl _ => error_message
      end
  | inl _ => error_message
  end.

(** The prompt of a call of [ask]. *)
Definition prompt_of (w : World) (self : MyRAGAgent) (q : string) : string :=
  prompt_text (retrieved w self q) (chat_history self) q.

(** The name the upload checks run on: a missing filename fails them as
    the empty one does. *)
Definition upload_name (file : UploadFile) : string :=
  default "" (filename file).

(** A history made of turns: a human message, then the answer to it. *)
Inductive turns : list Message -> Prop :=
| turns_nil : turns []
| turns_cons q a h : turns h -> turns (HumanMessage q :: AIMessage a :: h).

(** A name that ends in '.pdf', whatever the case of its letters. *)
Definition ends_in_pdf (n : string) : Prop :=
  exists stem a b c,
    n = stem +:+ String "." (String a (String b (String c "")))
    /\ (a = "p" \/ a = "P")%char
    /\ (b = "d" \/ b = "D")%char
    /\ (c = "f" \/ c = "F")%char.

(** The path [p] is that of an entry of directory [d] with a PDF name. *)
Definition pdf_entry_path (d p : string) : Prop :=
  exists n, os.plain n = true /\ is_pdf n = true /\ p = os.path_join d n.

(** What GET /status would report as documents_loaded. *)
Definition pdf_count (s : Server) : Z :=
  len_names (filter_pdf (os.listdir (pdfs_dir s) (files s))).

Definition is_file (x : option node) : bool :=
  match x with Some (File _) => true | _ => false end.

(** The files of the PDFs directory that bear a PDF name: its entries of
    that name that are not directories. *)
Definition pdf_files (s : Server) : list string :=
  filter (fun n => is_file (files s !! os.path_join (pdfs_dir s) n) = true)
         (filter_pdf (os.listdir (pdfs_dir s) (files s))).

(** The pages one path gives to [load_documents]: those the parser reads in
    it, and none when the path does not exist, has no PDF name, or the
    parser raises or finds nothing. *)
Definition pages_of (w : World) (fs : gmap string node) (pdf_path : string)
  : list Document :=
  if os.path_exists pdf_path fs && is_pdf pdf_path then
    match load_pdf w fs pdf_path with
    | inr loaded_docs => loaded_docs
    | inl _ => []
    end
  else [].

(** ** Sample worlds and servers *)

Module Sample.

(** A parser that finds one page holding the file's bytes as text, and no
    page at all in an empty file. *)
Definition parse (path : string) (bytes : list Byte.byte)
  : exn + list Document :=
  match bytes with
  | [] => inr []
  | _ => inr [ {| page_content := string_of_list_byte bytes;
                  metadata := [("source", path)] |} ]
  end.

Definition reply (txt : string) : GenerateContentResponse :=
  {| text := Value txt; content := Missing; repr := "<response>" |}.

(** Every library and service answers. *)
Definition world : World :=
  {| sdk_setup := fun _ => None;
     pdf_loader := parse;
     split_documents := fun docs => inr docs;
     embed_documents := fun _ => None;
     similarity_search := fun store _ k => inr (take k store);
     generate_content := fun _ => inr (reply "It says hello.") |}.

(** The generation service is down. *)
Definition world_no_llm : World :=
  {| sdk_setup := fun _ => None;
     pdf_loader := parse;
     split_documents := fun docs => inr docs;
     embed_documents := fun _ => None;
     similarity_search := fun store _ k => inr (take k store);
     generate_content := fun _ => inl (Exception "503 Service Unavailable") |}.

(** The similarity search raises. *)
Definition world_no_search : World :=
  {| sdk_setup := fun _ => None;
     pdf_loader := parse;
     split_documents := fun docs => inr docs;
     embed_documents := fun _ => None;
     similarity_search := fun _ _ _ => inl (Exception "embedding quota exceeded");
     generate_content := fun _ => inr (reply "It says hello.") |}.

Definition hello : list Byte.byte := [Byte.x68; Byte.x65; Byte.x6c; Byte.x6c; Byte.x6f].

Definition chunk : Document :=
  {| page_content := "hello"; metadata := [("source", "/app/pdfs/a.pdf")] |}.

Definition agent : MyRAGAgent :=
  {| gemini_api_key := "key";
     vector_store := [chunk];
     chat_history := [HumanMessage "hi"; AIMessage "Hello!"] |}.

(** The directory of the module. *)
Definition app : AbsDir := {| abs_path := "/app"; abs_normal := eq_refl |}.

Definition disk : gmap string node :=
  <["/app/pdfs/a.pdf" := File hello]>
  (<["/app/pdfs/B.PDF" := File hello]>
  (<["/app/pdfs/notes.txt" := File []]>
  (<["/app/main.py" := File []]>
  (<["/app/pdfs" := Dir]>
  (<["/app" := Dir]> ∅))))).

(** A running server with two PDF files and an initialised agent. *)
Definition server : Server :=
  {| GEMINI_API_KEY := Some "key";
     my_rag_agent := Some agent;
     module_dir := app;
     files := disk |}.

(** The server as it starts when the key is not set. *)
Definition server_no_key : Server := startup world None app disk.

Definition upload (name : string) (bytes : list Byte.byte) : UploadFile :=
  {| filename := Some name; file_bytes := bytes |}.

(** More bytes than the upload limit admits. *)
Definition oversized : list Byte.byte :=
  repeat Byte.x00 (N.to_nat 52428801).

(** An agent whose history is full: ten turns, twenty entries. *)
Definition talkative : MyRAGAgent :=
  {| gemini_api_key := "key";
     vector_store := [chunk];
     chat_history :=
       mjoin (replicate 10 [HumanMessage "hi"; AIMessage "Hello!"]) |}.

(** The body of a successful reset. *)
Definition reset_body : list (string * string) :=
  [("message", "All documents and chat history have been reset");
   ("status", "success")].

End Sample.

(** Further scenarios. *)
Module Scenario.

(** The SDK cannot be set up (a bad key, say). *)
Definition world_no_sdk : World :=
  {| sdk_setup := fun _ => Some (Exception "API key not valid");
     pdf_loader := Sample.parse;
     split_documents := fun docs => inr docs;
     embed_documents := fun _ => None;
     similarity_search := fun store _ k => inr (take k store);
     generate_content := fun _ => inr (Sample.reply "It says hello.") |}.

(** The embedding service is down. *)
Definition world_no_embedding : World :=
  {| sdk_setup := fun _ => None;
     pdf_loader := Sample.parse;
     split_documents := fun docs => inr docs;
     embed_documents := fun _ => Some (Exception "embedding quota exceeded");
     similarity_search := fun store _ k => inr (take k store);
     generate_content := fun _ => inr (Sample.reply "It says hello.") |}.

(** The sample disk with a directory that bears a PDF name. *)
Definition disk_with_dir : gmap string node :=
  <["/app/pdfs/scans.pdf" := Dir]> Sample.disk.

Definition server_with_dir : Server :=
  {| GEMINI_API_KEY := Some "key";
     my_rag_agent := Some Sample.agent;
     module_dir := Sample.app;
     files := disk_with_dir |}.

(** The sample disk with the directory /tmp, and the server on it. *)
Definition disk_with_tmp : gmap string node :=
  <["/tmp" := Dir]> Sample.disk.

Definition server_with_tmp : Server :=
  {| GEMINI_API_KEY := Some "key";
     my_rag_agent := Some Sample.agent;
     module_dir := Sample.app;
     files := disk_with_tmp |}.

End Scenario.

(** * Properties *)

(** ** The model at work *)

Example lower_example : Py.lower "Report.PDF" = "report.pdf".
Proof. reflexivity. Qed.

Example strip_example : Py.strip "  hi there  " = "hi there".
Proof. reflexivity. Qed.

Example is_pdf_example :
  is_pdf "B.PDF" = true /\ is_pdf "notes.txt" = false /\ is_pdf "pdf" = false.
Proof. repeat split. Qed.

Example path_join_example :
  os.path_join "/app" "pdfs" = "/app/pdfs"
  /\ os.path_join "/app/pdfs" "a.pdf" = "/app/pdfs/a.pdf"
  /\ os.path_join "/app/pdfs" "/tmp/a.pdf" = "/tmp/a.pdf".
Proof. repeat split. Qed.

Example listdir_example :
  os.listdir "/app/pdfs" Sample.disk = ["a.pdf"; "notes.txt"; "B.PDF"].
Proof. vm_compute. reflexivity. Qed.

(** What a path names: '.' and '..' are followed, and a directory that is
    missing on the way is an error. *)
Example resolve_example :
  os.resolve Sample.disk "/app/pdfs/./c.pdf" = inr "/app/pdfs/c.pdf"
  /\ os.resolve Sample.disk "/app/pdfs/../c.pdf" = inr "/app/c.pdf"
  /\ os.resolve Sample.disk "/app/pdfs//a.pdf" = inr "/app/pdfs/a.pdf"
  /\ os.resolve Sample.disk "/app/pdfs/nodir/c.pdf"
     = inl (OSError
              "[Errno 2] No such file or directory: '/app/pdfs/nodir/c.pdf'")
  /\ os.resolve Sample.disk "/app/pdfs/a.pdf/c.pdf"
     = inl (OSError "[Errno 20] Not a directory: '/app/pdfs/a.pdf/c.pdf'").
Proof. repeat split. Qed.

(** An upload into a directory that is not there writes nothing and is
    answered 500. *)
Example upload_missing_directory_example :
  serve (upload_pdf Sample.world (Sample.upload "nodir/c.pdf" Sample.hello))
        Sample.server
  = (Failure 500
       ("Internal server error: "
        +:+ "[Errno 2] No such file or directory: '/app/pdfs/nodir/c.pdf'"),
     Sample.server).
Proof. vm_compute. reflexivity. Qed.

(** An upload under './c.pdf' lands in the PDFs directory as c.pdf, and the
    status counts it. *)
Example upload_dot_example :
  let r := serve (upload_pdf Sample.world (Sample.upload "./c.pdf" Sample.hello))
                 Sample.server in
  status_code (fst r) = 200
  /\ files (snd r) !! "/app/pdfs/c.pdf" = Some (File Sample.hello)
  /\ files (snd r) !! "/app/pdfs/./c.pdf" = None
  /\ len_names (filter_pdf (os.listdir (pdfs_dir (snd r)) (files (snd r)))) = 3.
Proof. vm_compute. repeat split. Qed.

(** The module creates its PDFs directory when it is loaded. *)
Example startup_example :
  files (startup Sample.world None Sample.app ∅) !! "/app/pdfs" = Some Dir
  /\ files (startup Sample.world None Sample.app ∅) !! "/app" = Some Dir
  /\ files (startup Sample.world None Sample.app Sample.disk) = Sample.disk.
Proof. vm_compute. repeat split. Qed.

Example status_example :
  fst (serve get_status Sample.server)
  = Success {| status := "running"; rag_agent_ready := true;
               pdfs_directory := "/app/pdfs"; documents_loaded := 2 |}.
Proof. vm_compute. reflexivity. Qed.

Example chat_example :
  fst (serve (chat Sample.world "  what does it say? ") Sample.server)
  = Success {| response := "It says hello."; chat_status := "success" |}.
Proof. vm_compute. reflexivity. Qed.

(** A reset on a server without agent: the 503 raised in the body is taken
    by the handler's own [except Exception] and leaves as a 500. *)
Example reset_without_agent_example :
  status_code (fst (serve (reset_documents Sample.world) Sample.server_no_key))
  = 500.
Proof. vm_compute. reflexivity. Qed.

(** ** Strings *)

Section Strings.

Lemma endswith_refl s : Py.endswith s s = true.
Proof. destruct s; cbn [Py.endswith]; rewrite String.eqb_refl; reflexivity. Qed.

Lemma endswith_cons c s suffix :
  Py.endswith s suffix = true -> Py.endswith (String c s) suffix = true.
Proof.
  intros Hs. cbn [Py.endswith].
  destruct (String.eqb (String c s) suffix); [reflexivity | exact Hs].
Qed.

Lemma endswith_app a b suffix :
  Py.endswith b suffix = true -> Py.endswith (a +:+ b) suffix = true.
Proof.
  intros Hb. induction a as [|c a IH]; [exact Hb|].
  change (String c a +:+ b) with (String c (a +:+ b)).
  apply endswith_cons, IH.
Qed.

(** [endswith] is Python's: [s] ends with [suffix] when [s = p + suffix]. *)
Lemma endswith_spec s suffix :
  Py.endswith s suffix = true <-> exists p, s = p +:+ suffix.
Proof.
  split.
  - induction s as [|c s IH]; cbn [Py.endswith].
    + destruct (String.eqb_spec "" suffix) as [<-|]; [|discriminate].
      intros _. exists "". reflexivity.
    + destruct (String.eqb_spec (String c s) suffix) as [<-|].
      * intros _. exists "". reflexivity.
      * intros [p ->]%IH. exists (String c p). reflexivity.
  - intros [p ->]. apply endswith_app, endswith_refl.
Qed.

Lemma lower_app a b : Py.lower (a +:+ b) = Py.lower a +:+ Py.lower b.
Proof.
  induction a as [|c a IH]; [reflexivity|].
  change (String c a +:+ b) with (String c (a +:+ b)).
  cbn [Py.lower]. rewrite IH. reflexivity.
Qed.

Lemma is_pdf_app a name : is_pdf name = true -> is_pdf (a +:+ name) = true.
Proof.
  unfold is_pdf. intros H. rewrite lower_app. apply endswith_app, H.
Qed.

Lemma lower_app_inv n a b :
  Py.lower n = a +:+ b ->
  exists x y, n = x +:+ y /\ Py.lower x = a /\ Py.lower y = b.
Proof.
  revert n. induction a as [|c a IH]; intros n.
  - intros H. exists "", n. repeat split. exact H.
  - destruct n as [|c' n]; [discriminate|].
    change (String c a +:+ b) with (String c (a +:+ b)). cbn [Py.lower].
    intros [= Hc (x & y & -> & Hx & Hy)%IH].
    exists (String c' x), y. repeat split; [|exact Hy].
    cbn [Py.lower]. rewrite Hc, Hx. reflexivity.
Qed.

(** The characters that lower to a given letter of '.pdf'. *)
Lemma lower_char_cases x :
  (Py.lower_char x = "."%char <-> x = "."%char)
  /\ (Py.lower_char x = "p"%char <-> x = "p"%char \/ x = "P"%char)
  /\ (Py.lower_char x = "d"%char <-> x = "d"%char \/ x = "D"%char)
  /\ (Py.lower_char x = "f"%char <-> x = "f"%char \/ x = "F"%char).
Proof.
  destruct x as [[] [] [] [] [] [] [] []]; vm_compute;
    repeat split; intros H; try discriminate H; auto;
    destruct H as [H|H]; discriminate H.
Qed.

(** The test for a PDF name, character by character: the name ends in a
    dot followed by p, d and f, each in either case. *)
Lemma is_pdf_ends_in_pdf n : is_pdf n = true <-> ends_in_pdf n.
Proof.
  unfold is_pdf, ends_in_pdf. rewrite endswith_spec. split.
  - intros [p (x & y & -> & _ & Hy)%lower_app_inv].
    destruct y as [|c0 [|a [|b [|c [|? ?]]]]]; try discriminate Hy.
    cbn [Py.lower] in Hy. injection Hy as H0 Ha Hb Hc.
    apply (proj1 (lower_char_cases c0)) in H0. subst c0.
    exists x, a, b, c. split; [reflexivity|].
    split; [apply (lower_char_cases a), Ha|].
    split; [apply (lower_char_cases b), Hb | apply (lower_char_cases c), Hc].
  - intros (stem & a & b & c & -> & Ha & Hb & Hc).
    exists (Py.lower stem). rewrite lower_app. cbn [Py.lower].
    apply (lower_char_cases a) in Ha. apply (lower_char_cases b) in Hb.
    apply (lower_char_cases c) in Hc. rewrite Ha, Hb, Hc. reflexivity.
Qed.

Lemma rstrip_empty_iff s : Py.rstrip s = "" <-> blank s.
Proof.
  unfold blank. induction s as [|c s IH]; cbn [Py.rstrip list_ascii_of_string].
  - split; [constructor | reflexivity].
  - rewrite Forall_cons. destruct (Py.rstrip s) as [|c' r] eqn:Hr.
    + destruct (Py.isspace c); split; try discriminate; try tauto.
      intros [? _]; discriminate.
    + split; [discriminate|]. intros [_ Hs]. apply IH in Hs. discriminate.
Qed.

Lemma lstrip_blank s : blank s -> Py.lstrip s = "".
Proof.
  unfold blank. induction s as [|c s IH]; cbn [Py.lstrip list_ascii_of_string].
  - reflexivity.
  - rewrite Forall_cons. intros [-> Hs]. apply IH, Hs.
Qed.

Lemma lstrip_head s c r : Py.lstrip s = String c r -> Py.isspace c = false.
Proof.
  induction s as [|c' s IH]; cbn [Py.lstrip]; [discriminate|].
  destruct (Py.isspace c') eqn:Hc'; [exact IH|].
  intros [= <- _]. exact Hc'.
Qed.

Lemma lstrip_not_blank s : Py.lstrip s = "" -> blank s.
Proof.
  unfold blank. induction s as [|c s IH]; cbn [Py.lstrip list_ascii_of_string].
  - constructor.
  - destruct (Py.isspace c) eqn:Hc; [|discriminate].
    intros Hs. constructor; [exact Hc | apply IH, Hs].
Qed.

(** The test of [chat] and of [ask], [not s.strip()], holds exactly of the
    strings that are empty or all whitespace. *)
Lemma strip_empty_iff s : Py.truthy (Py.strip s) = false <-> blank s.
Proof.
  unfold Py.strip. split.
  - intros Ht. destruct (Py.rstrip (Py.lstrip s)) eqn:Hr; [|discriminate].
    destruct (Py.lstrip s) as [|c r] eqn:Hl; [apply lstrip_not_blank, Hl|].
    exfalso. apply rstrip_empty_iff in Hr. unfold blank in Hr.
    cbn [list_ascii_of_string] in Hr. apply Forall_cons in Hr as [Hc _].
    apply lstrip_head in Hl. congruence.
  - intros Hb. rewrite (lstrip_blank s Hb). reflexivity.
Qed.

Lemma strip_truthy s : ~ blank s -> Py.truthy (Py.strip s) = true.
Proof.
  intros Hb. destruct (Py.truthy (Py.strip s)) eqn:Ht; [reflexivity|].
  exfalso. apply Hb, strip_empty_iff, Ht.
Qed.

End Strings.

(** ** The file system *)

Section Files.

Implicit Types (fs : gmap string node) (d n p : string).

Lemma append_empty_r a : a +:+ "" = a.
Proof.
  induction a as [|c a IH]; [reflexivity|].
  change (String c a +:+ "") with (String c (a +:+ "")). rewrite IH. reflexivity.
Qed.

Lemma append_assoc a b c : (a +:+ b) +:+ c = a +:+ b +:+ c.
Proof.
  induction a as [|x a IH]; [reflexivity|].
  change (String x (a +:+ b) +:+ c = String x (a +:+ b +:+ c)).
  change (String x ((a +:+ b) +:+ c) = String x (a +:+ b +:+ c)).
  rewrite IH. reflexivity.
Qed.

Lemma plain_not_absolute n : os.plain n = true -> Py.startswith n "/" = false.
Proof.
  unfold os.plain, os.has_sep. destruct n as [|c r]; [discriminate|].
  cbn [Py.truthy andb list_ascii_of_string existsb Py.startswith].
  destruct (Ascii.eqb "/" c); [discriminate | reflexivity].
Qed.

(** The path of an entry is the directory's prefix followed by its name. *)
Lemma path_join_plain d n :
  os.plain n = true -> os.path_join d n = os.path_join d "" +:+ n.
Proof.
  intros Hn. unfold os.path_join. rewrite (plain_not_absolute n Hn).
  cbn [Py.startswith].
  destruct (negb (Py.truthy d) || Py.endswith d "/").
  - rewrite append_empty_r. reflexivity.
  - rewrite !append_assoc. reflexivity.
Qed.

Lemma strip_prefix_app a b : os.strip_prefix a (a +:+ b) = Some b.
Proof.
  induction a as [|c a IH]; [destruct b; reflexivity|].
  change (String c a +:+ b) with (String c (a +:+ b)).
  cbn [os.strip_prefix]. rewrite Ascii.eqb_refl. exact IH.
Qed.

Lemma strip_prefix_Some a s r : os.strip_prefix a s = Some r -> s = a +:+ r.
Proof.
  revert s. induction a as [|c a IH]; intros s.
  - destruct s; cbn; intros [= <-]; reflexivity.
  - destruct s as [|c' s]; cbn [os.strip_prefix]; [discriminate|].
    destruct (Ascii.eqb_spec c c') as [<-|]; [|discriminate].
    intros ->%IH. reflexivity.
Qed.

Lemma entry_name_Some d p n :
  os.entry_name d p = Some n -> os.plain n = true /\ p = os.path_join d n.
Proof.
  unfold os.entry_name.
  destruct (os.strip_prefix (os.path_join d "") p) as [r|] eqn:Hp; [|discriminate].
  destruct (os.plain r) eqn:Hr; [|discriminate].
  intros [= <-]. split; [exact Hr|].
  rewrite (path_join_plain d r Hr). apply strip_prefix_Some, Hp.
Qed.

Lemma entry_name_join d n :
  os.plain n = true -> os.entry_name d (os.path_join d n) = Some n.
Proof.
  intros Hn. unfold os.entry_name.
  rewrite (path_join_plain d n Hn), strip_prefix_app, Hn. reflexivity.
Qed.

(** What [os.listdir] lists: the plain names under which the directory
    holds a node. *)
Lemma elem_of_listdir d fs n :
  n ∈ os.listdir d fs <->
  os.plain n = true /\ is_Some (fs !! os.path_join d n).
Proof.
  unfold os.listdir. rewrite list_elem_of_omap. split.
  - intros (p & Hp & Hn). apply entry_name_Some in Hn as [Hplain ->].
    split; [exact Hplain|].
    apply list_elem_of_fmap in Hp as ([p' x] & Heq & Hin). simpl in Heq. subst p'.
    apply elem_of_map_to_list in Hin. eauto.
  - intros (Hplain & x & Hx). exists (os.path_join d n). split.
    + apply list_elem_of_fmap. exists (os.path_join d n, x). split; [reflexivity|].
      apply elem_of_map_to_list, Hx.
    + apply entry_name_join, Hplain.
Qed.

Lemma NoDup_omap_inj {A B} (f : A -> option B) (l : list A) :
  (forall x y b, f x = Some b -> f y = Some b -> x = y) ->
  NoDup l -> NoDup (omap f l).
Proof.
  intros Hinj. induction 1 as [|x l Hx Hl IH]; cbn [omap list_omap]; [constructor|].
  destruct (f x) as [b|] eqn:Hfx; [|exact IH].
  constructor; [|exact IH].
  intros (y & Hy & Hfy)%list_elem_of_omap.
  rewrite (Hinj x y b Hfx Hfy) in Hx. contradiction.
Qed.

(** A listing names no entry twice. *)
Lemma NoDup_listdir d fs : NoDup (os.listdir d fs).
Proof.
  unfold os.listdir. apply NoDup_omap_inj; [|apply NoDup_fst_map_to_list].
  intros p q n [_ ->]%entry_name_Some [_ ->]%entry_name_Some. reflexivity.
Qed.

Lemma is_pdf_path_join d n : is_pdf n = true -> is_pdf (os.path_join d n) = true.
Proof.
  intros Hn. unfold os.path_join.
  destruct (Py.startswith n "/"); [exact Hn|].
  destruct (negb (Py.truthy d) || Py.endswith d "/").
  - apply is_pdf_app, Hn.
  - rewrite <- append_assoc. apply is_pdf_app, Hn.
Qed.

End Files.

(** ** Paths and the nodes they name *)

Section Paths.

Implicit Types (fs : gmap string node) (d n p c : string) (l : list string).

Lemma ordinary_plain c : os.ordinary c = true -> os.plain c = true.
Proof. unfold os.ordinary. destruct (os.plain c); [reflexivity | discriminate]. Qed.

Lemma plain_no_sep c : os.plain c = true -> os.has_sep c = false.
Proof.
  unfold os.plain. destruct (os.has_sep c); [|reflexivity].
  rewrite andb_false_r. discriminate.
Qed.

Lemma has_sep_cons a c :
  os.has_sep (String a c) = Ascii.eqb "/" a || os.has_sep c.
Proof. reflexivity. Qed.

(** A string without a separator is its own single component. *)
Lemma split_no_sep c : os.has_sep c = false -> os.split c = [c].
Proof.
  induction c as [|a c IH]; [reflexivity|].
  rewrite has_sep_cons. intros [Ha Hc]%orb_false_iff.
  cbn [os.split]. rewrite Ascii.eqb_sym, Ha, (IH Hc). reflexivity.
Qed.

Lemma split_app_sep c r :
  os.has_sep c = false -> os.split (c +:+ String "/" r) = c :: os.split r.
Proof.
  induction c as [|a c IH]; [reflexivity|].
  rewrite has_sep_cons. intros [Ha Hc]%orb_false_iff.
  change (String a c +:+ String "/" r) with (String a (c +:+ String "/" r)).
  cbn [os.split]. rewrite Ascii.eqb_sym, Ha, (IH Hc). reflexivity.
Qed.

Lemma of_parts_cons c l : os.of_parts (c :: l) = "/" +:+ c +:+ os.of_parts l.
Proof. reflexivity. Qed.

Lemma of_parts_app l1 l2 :
  os.of_parts (l1 ++ l2) = os.of_parts l1 +:+ os.of_parts l2.
Proof.
  induction l1 as [|c l1 IH]; [reflexivity|].
  change ((c :: l1) ++ l2) with (c :: (l1 ++ l2)).
  rewrite !of_parts_cons, IH.
  change ("/" +:+ ?x) with (String "/" x).
  change (String "/" ?x +:+ ?y) with (String "/" (x +:+ y)).
  rewrite append_assoc. reflexivity.
Qed.

Lemma of_parts_snoc l c : os.of_parts (l ++ [c]) = os.of_parts l +:+ "/" +:+ c.
Proof.
  rewrite of_parts_app. cbn [os.of_parts fold_right].
  rewrite append_empty_r. reflexivity.
Qed.

(** The components of a key are those it was made of. *)
Lemma split_of_parts c l :
  Forall (fun x => os.has_sep x = false) (c :: l) ->
  os.split (os.of_parts (c :: l)) = "" :: c :: l.
Proof.
  intros Hl. rewrite of_parts_cons.
  change ("/" +:+ ?x) with (String "/" x). cbn [os.split].
  rewrite Ascii.eqb_refl. f_equal.
  revert c Hl. induction l as [|c' l IH]; intros c Hl.
  - cbn [os.of_parts fold_right]. rewrite append_empty_r.
    apply split_no_sep. apply Forall_cons in Hl as [Hc _]. exact Hc.
  - apply Forall_cons in Hl as [Hc Hl]. rewrite of_parts_cons.
    change ("/" +:+ ?x) with (String "/" x).
    rewrite (split_app_sep c _ Hc), (IH c' Hl). reflexivity.
Qed.

Lemma ordinary_not_special c :
  os.ordinary c = true ->
  (String.eqb c "" || String.eqb c ".") = false /\ String.eqb c ".." = false.
Proof.
  unfold os.ordinary, os.plain.
  destruct c as [|a c]; [discriminate|].
  destruct (String.eqb (String a c) ".") eqn:H1;
    [rewrite andb_false_r; discriminate|].
  destruct (String.eqb (String a c) "..") eqn:H2;
    [rewrite andb_false_r; discriminate|].
  intros _. split; reflexivity.
Qed.

(** The walk along components that name entries ends at the key they make,
    when it ends at one. *)
Lemma walk_ordinary fs p l0 l n k :
  Forall (fun c => os.ordinary c = true) (l ++ [n]) ->
  os.walk fs p (os.of_parts l0) (l ++ [n]) = inr k ->
  k = os.of_parts (l0 ++ l ++ [n]).
Proof.
  revert l0. induction l as [|c l IH]; intros l0 Hl.
  - apply Forall_cons in Hl as [Hn _].
    cbn [app os.walk]. destruct (ordinary_not_special n Hn) as [-> ->].
    intros [= <-]. rewrite of_parts_snoc. reflexivity.
  - change ((c :: l) ++ [n]) with (c :: (l ++ [n])) in *.
    apply Forall_cons in Hl as [Hc Hl].
    cbn [os.walk]. destruct (ordinary_not_special c Hc) as [-> ->].
    destruct (l ++ [n]) as [|c' rest] eqn:Hrest.
    { destruct l; discriminate. }
    rewrite <- of_parts_snoc.
    destruct (fs !! os.of_parts (l0 ++ [c])) as [[?|]|]; try discriminate.
    intros Hw. rewrite (IH (l0 ++ [c]) Hl Hw), <- !app_assoc. reflexivity.
Qed.

Lemma has_sep_app_sep a : os.has_sep (a +:+ "/") = true.
Proof.
  induction a as [|x a IH]; [reflexivity|].
  change (String x a +:+ "/") with (String x (a +:+ "/")).
  rewrite has_sep_cons, IH. apply orb_true_r.
Qed.

(** A path that ends in a name does not end in a separator. *)
Lemma not_endswith_sep a c :
  Py.truthy c = true -> os.has_sep c = false -> Py.endswith (a +:+ c) "/" = false.
Proof.
  intros Ht Hc. destruct (Py.endswith (a +:+ c) "/") eqn:He; [|reflexivity].
  apply endswith_spec in He as [pre He]. exfalso.
  revert pre He. induction a as [|x a IH]; intros pre He.
  - change ("" +:+ c) with c in He. rewrite He, has_sep_app_sep in Hc.
    discriminate.
  - change (String x a +:+ c) with (String x (a +:+ c)) in He.
    destruct pre as [|y pre].
    + change ("" +:+ "/") with "/" in He. injection He as _ He.
      destruct a; [|discriminate].
      change ("" +:+ c) with c in He. rewrite He in Ht. discriminate.
    + change (String y pre +:+ "/") with (String y (pre +:+ "/")) in He.
      injection He as _ He. exact (IH pre He).
Qed.

Lemma of_parts_truthy c l : Py.truthy (os.of_parts (c :: l)) = true.
Proof. reflexivity. Qed.

Lemma of_parts_not_endswith_sep c l :
  Forall (fun x => os.ordinary x = true) (c :: l) ->
  Py.endswith (os.of_parts (c :: l)) "/" = false.
Proof.
  intros Hl.
  destruct (exists_last (l := c :: l)) as (l' & c' & Heq); [discriminate|].
  rewrite Heq in *. rewrite of_parts_snoc, <- append_assoc.
  apply Forall_app in Hl as [_ Hc']. apply Forall_cons in Hc' as [Hc' _].
  apply ordinary_plain in Hc'. pose proof (plain_no_sep c' Hc') as Hs.
  apply not_endswith_sep; [|exact Hs].
  unfold os.plain in Hc'. destruct (Py.truthy c'); [reflexivity | discriminate].
Qed.

(** The shape of a path in normal form. *)
Lemma normal_cases d :
  os.normal d = true ->
  d = "/" \/
  exists c l, Forall (fun x => os.ordinary x = true) (c :: l)
              /\ d = os.of_parts (c :: l).
Proof.
  unfold os.normal. destruct (String.eqb_spec d "/") as [->|_]; [left; reflexivity|].
  cbn [orb]. destruct (os.split d) as [|[|] [|c l]]; try discriminate.
  intros [Hl Heq]%andb_true_iff. right. exists c, l. split.
  - apply Forall_forall. intros x Hx. rewrite forallb_forall in Hl.
    apply Hl. apply list_elem_of_In, Hx.
  - symmetry. apply String.eqb_eq, Heq.
Qed.

Lemma normal_of_parts c l :
  Forall (fun x => os.ordinary x = true) (c :: l) ->
  os.normal (os.of_parts (c :: l)) = true.
Proof.
  intros Hl. unfold os.normal. rewrite split_of_parts.
  2:{ eapply Forall_impl; [exact Hl|]. intros x Hx. cbn beta.
      apply plain_no_sep, ordinary_plain, Hx. }
  rewrite String.eqb_refl, andb_true_r.
  replace (forallb os.ordinary (c :: l)) with true; [apply orb_true_r|].
  symmetry. apply forallb_forall. intros x Hx.
  rewrite Forall_forall in Hl. apply Hl, list_elem_of_In, Hx.
Qed.

(** The entry [n] of a directory in normal form has the key made of the
    directory's components and [n]. *)
Lemma path_join_normal d n :
  os.normal d = true -> os.plain n = true ->
  exists l, Forall (fun x => os.ordinary x = true) l
            /\ os.path_join d n = os.of_parts (l ++ [n])
            /\ (l <> [] -> d = os.of_parts l).
Proof.
  intros [->|(c & l & Hl & ->)]%normal_cases Hn.
  - exists []. split; [constructor|]. split; [|congruence].
    unfold os.path_join. rewrite (plain_not_absolute n Hn).
    cbn [Py.truthy negb orb Py.endswith String.eqb Ascii.eqb Bool.eqb].
    cbn [app os.of_parts fold_right]. rewrite append_empty_r. reflexivity.
  - exists (c :: l). split; [exact Hl|]. split; [|reflexivity].
    unfold os.path_join. rewrite (plain_not_absolute n Hn).
    rewrite of_parts_truthy, (of_parts_not_endswith_sep c l Hl).
    cbn [negb orb]. rewrite of_parts_snoc. reflexivity.
Qed.

(** The walk raises [OSError] only. *)
Lemma walk_inl fs p cur comps e :
  os.walk fs p cur comps = inl e -> exists m, e = OSError m.
Proof.
  revert cur. induction comps as [|c rest IH]; intros cur; [discriminate|].
  cbn [os.walk].
  destruct (String.eqb c "" || String.eqb c "."); [apply IH|].
  destruct (String.eqb c ".."); [apply IH|].
  destruct rest as [|c' rest]; [discriminate|].
  destruct (fs !! (cur +:+ "/" +:+ c)) as [[?|]|]; [| apply IH |];
    intros [= <-]; eauto.
Qed.

(** A path under which the map holds a node names that node. *)
Lemma resolve_key fs p x : fs !! p = Some x -> os.resolve fs p = inr p.
Proof. intros Hp. unfold os.resolve. rewrite Hp. reflexivity. Qed.

(** The path of an entry of a directory in normal form is resolved to
    itself, if to anything. *)
Lemma resolve_entry fs d n k :
  os.normal d = true -> os.ordinary n = true ->
  os.resolve fs (os.path_join d n) = inr k -> k = os.path_join d n.
Proof.
  intros Hd Hn.
  destruct (path_join_normal d n Hd (ordinary_plain n Hn)) as (l & Hl & Heq & _).
  unfold os.resolve. destruct (fs !! os.path_join d n); [congruence|].
  destruct (Py.truthy (os.path_join d n)); [|discriminate].
  assert (Hall : Forall (fun x => os.ordinary x = true) (l ++ [n])).
  { apply Forall_app. split; [exact Hl | constructor; [exact Hn | constructor]]. }
  assert (Hs : os.split (os.path_join d n) = "" :: l ++ [n]).
  { rewrite Heq. destruct (l ++ [n]) as [|c l'] eqn:Hln; [destruct l; discriminate|].
    apply split_of_parts. eapply Forall_impl; [exact Hall|].
    intros x Hx. cbn beta. apply plain_no_sep, ordinary_plain, Hx. }
  rewrite Hs.
  change (os.walk fs ?q "" ("" :: ?r)) with (os.walk fs q (os.of_parts []) r).
  intros Hw. rewrite (walk_ordinary fs _ [] l n k Hall Hw), Heq. reflexivity.
Qed.

(** An entry of a directory in normal form has a path in normal form. *)
Lemma normal_path_join d n :
  os.normal d = true -> os.ordinary n = true -> os.normal (os.path_join d n) = true.
Proof.
  intros Hd Hn.
  destruct (path_join_normal d n Hd (ordinary_plain n Hn)) as (l & Hl & -> & _).
  assert (Hall : Forall (fun x => os.ordinary x = true) (l ++ [n])).
  { apply Forall_app. split; [exact Hl | constructor; [exact Hn | constructor]]. }
  destruct (l ++ [n]) as [|c l'] eqn:Hln; [destruct l; discriminate|].
  apply normal_of_parts, Hall.
Qed.

Lemma is_pdf_ordinary n : os.plain n = true -> is_pdf n = true -> os.ordinary n = true.
Proof.
  intros Hp Hn. unfold os.ordinary. rewrite Hp.
  destruct (String.eqb_spec n ".") as [->|_]; [discriminate|].
  destruct (String.eqb_spec n "..") as [->|_]; [discriminate|]. reflexivity.
Qed.

(** [os.path.exists] on the path of an entry. *)
Lemma path_exists_entry fs d n :
  os.normal d = true -> os.ordinary n = true ->
  os.path_exists (os.path_join d n) fs
  = match fs !! os.path_join d n with Some _ => true | None => false end.
Proof.
  intros Hd Hn. unfold os.path_exists.
  destruct (fs !! os.path_join d n) as [x|] eqn:Hp.
  - rewrite (resolve_key fs _ x Hp), Hp. reflexivity.
  - destruct (os.resolve fs (os.path_join d n)) as [e|k] eqn:Hr; [reflexivity|].
    apply resolve_entry in Hr; [|assumption..]. subst k. rewrite Hp.
    destruct (path_join_normal d n Hd (ordinary_plain n Hn)) as (l & _ & -> & _).
    destruct l; reflexivity.
Qed.

(** A file written under the path of an entry stands under that path. *)
Lemma write_bytes_entry fs d n content fs' :
  os.normal d = true -> os.ordinary n = true ->
  os.write_bytes (os.path_join d n) content fs = inr fs' ->
  fs' = <[os.path_join d n := File content]> fs
  /\ fs !! os.path_join d n <> Some Dir.
Proof.
  intros Hd Hn. unfold os.write_bytes.
  destruct (os.resolve fs (os.path_join d n)) as [e|k] eqn:Hr; [discriminate|].
  apply resolve_entry in Hr; [|assumption..]. subst k.
  destruct (fs !! os.path_join d n) as [[bytes|]|]; try discriminate.
  - intros [= <-]. split; [reflexivity | discriminate].
  - destruct (Py.truthy _); [|discriminate].
    intros [= <-]. split; [reflexivity | discriminate].
Qed.

(** What a write that succeeds does: one key gets the file, and it held no
    directory. *)
Lemma write_bytes_inr fs p content fs' :
  os.write_bytes p content fs = inr fs' ->
  exists k, os.resolve fs p = inr k
            /\ fs !! k <> Some Dir
            /\ fs' = <[k := File content]> fs.
Proof.
  unfold os.write_bytes.
  destruct (os.resolve fs p) as [e|k] eqn:Hr; [discriminate|].
  destruct (fs !! k) as [[bytes|]|] eqn:Hk; try discriminate.
  - intros [= <-]. exists k. rewrite Hk. repeat split; congruence.
  - destruct (Py.truthy k); [|discriminate].
    intros [= <-]. exists k. rewrite Hk. repeat split; congruence.
Qed.

(** A walk that ends is not changed by a file put where no directory was. *)
Lemma walk_insert_file fs p k content cur comps k' :
  fs !! k <> Some Dir ->
  os.walk fs p cur comps = inr k' ->
  os.walk (<[k := File content]> fs) p cur comps = inr k'.
Proof.
  intros Hk. revert cur. induction comps as [|c rest IH]; intros cur.
  - exact id.
  - cbn [os.walk].
    destruct (String.eqb c "" || String.eqb c "."); [apply IH|].
    destruct (String.eqb c ".."); [apply IH|].
    destruct rest as [|c' rest]; [exact id|].
    destruct (fs !! (cur +:+ "/" +:+ c)) as [[?|]|] eqn:Hn; try discriminate.
    rewrite lookup_insert_ne by congruence. rewrite Hn. apply IH.
Qed.

(** Writing a file does not change what its path names. *)
Lemma resolve_insert_file fs p k content :
  os.resolve fs p = inr k -> fs !! k <> Some Dir ->
  os.resolve (<[k := File content]> fs) p = inr k.
Proof.
  unfold os.resolve. intros Hr Hk.
  destruct (decide (k = p)) as [->|Hne].
  - rewrite lookup_insert_eq. reflexivity.
  - rewrite lookup_insert_ne by exact Hne.
    destruct (fs !! p); [congruence|].
    destruct (Py.truthy p); [|discriminate].
    apply walk_insert_file; assumption.
Qed.

(** [os.remove] on a path under which the map holds a node. *)
Lemma remove_key fs p x :
  fs !! p = Some x ->
  os.remove p fs
  = match x with
    | File _ => inr (delete p fs)
    | Dir => inl (OSError ("[Errno 21] Is a directory: '" +:+ p +:+ "'"))
    end.
Proof.
  intros Hp. unfold os.remove. rewrite (resolve_key fs p x Hp), Hp.
  destruct x; reflexivity.
Qed.

(** A removal that succeeds deletes one key, which held a file. *)
Lemma remove_inr fs p fs' :
  os.remove p fs = inr fs' ->
  exists k bytes, os.resolve fs p = inr k
                  /\ fs !! k = Some (File bytes) /\ fs' = delete k fs.
Proof.
  unfold os.remove.
  destruct (os.resolve fs p) as [e|k] eqn:Hr; [discriminate|].
  destruct (fs !! k) as [[bytes|]|] eqn:Hk; try discriminate.
  - intros [= <-]. eauto.
  - destruct (Py.truthy k); discriminate.
Qed.

End Paths.

(** ** The pipeline of [ask] *)

Section Pipeline.

Variables (w : World) (self : MyRAGAgent).

Lemma retrieve_eq st :
  Py.truthy (question st) = true ->
  retrieve w self st =
  (inr [SetContext (retrieved w self (question st))],
   [SimilaritySearch (question st) 4]).
Proof.
  intros Hq. unfold retrieve, retrieved. rewrite Hq. cbn [negb].
  unfold call, tbind, ttry, tret.
  destruct (similarity_search w (vector_store self) (question st) 4);
    reflexivity.
Qed.

Lemma generate_eq st :
  let prompt := prompt_text (context st) (messages st) (question st) in
  generate w self st =
  (inr [SetAnswer (generated w prompt);
        SetMessages [HumanMessage (question st); AIMessage (generated w prompt)]],
   [GenerateContent prompt]).
Proof.
  intros prompt. unfold generate, generated. fold prompt.
  unfold call, tbind, ttry, tret.
  destruct (generate_content w prompt) as [e|r]; [reflexivity|].
  destruct (response_text r); reflexivity.
Qed.

Lemma last_n_all {A} (n : nat) (l : list A) :
  (length l <= n)%nat -> Py.last_n n l = l.
Proof.
  intros Hl. unfold Py.last_n.
  replace (length l - n)%nat with 0%nat by lia. reflexivity.
Qed.

Lemma last_n_length {A} (n : nat) (l : list A) :
  (length (Py.last_n n l) <= n)%nat.
Proof. unfold Py.last_n. rewrite length_drop. lia. Qed.

Lemma last_n_app {A} (n : nat) (l k : list A) :
  (length k <= n)%nat ->
  Py.last_n n (l ++ k) = Py.last_n (n - length k) l ++ k.
Proof.
  intros Hk. unfold Py.last_n. rewrite length_app, drop_app.
  replace (length l + length k - n - length l)%nat with 0%nat by lia.
  replace (length l + length k - n)%nat
    with (length l - (n - length k))%nat by lia.
  reflexivity.
Qed.

(** A question that is not blank goes through the two nodes; the call
    returns the generated text and extends the history, keeping its last
    twenty entries. *)
Lemma ask_eq q :
  Py.truthy (Py.strip q) = true ->
  let a := generated w (prompt_of w self (Py.strip q)) in
  ask w self q =
  (inr (a, set_chat_history self
             (Py.last_n 20 (chat_history self
                            ++ [HumanMessage (Py.strip q); AIMessage a]))),
   [Enter "retrieve"; SimilaritySearch (Py.strip q) 4;
    Enter "generate"; GenerateContent (prompt_of w self (Py.strip q))]).
Proof.
  intros Hq a. unfold ask. rewrite Hq. cbn [negb].
  unfold _setup_graph. cbn [invoke].
  rewrite retrieve_eq by exact Hq.
  cbn [question tbind call update fold_left assign messages context answer].
  rewrite generate_eq.
  cbn [question tbind call update fold_left assign messages context answer
       ttry tret app is_empty negb].
  fold (prompt_of w self (Py.strip q)). fold a.
  destruct (20 <? length (chat_history self
                          ++ [HumanMessage (Py.strip q); AIMessage a]))%nat eqn:Hlen.
  - reflexivity.
  - apply Nat.ltb_ge in Hlen. rewrite last_n_all by exact Hlen. reflexivity.
Qed.

Lemma ask_blank q :
  Py.truthy (Py.strip q) = false ->
  ask w self q = (inl (ValueError "Question cannot be empty"), []).
Proof. intros Hq. unfold ask. rewrite Hq. reflexivity. Qed.

End Pipeline.

(** ** Loading documents *)

Section Loading.

Variables (w : World) (fs : gmap string node).

Lemma is_empty_false {A} (l : list A) : is_empty l = false <-> l <> [].
Proof. destruct l; cbn; split; congruence. Qed.

(** [load_documents] on a list of paths, when it returns: some pages were
    read, their chunks were embedded, and the chunks stand at the end of the
    store; nothing else of the agent has changed. *)
Lemma load_documents_inr self paths self' :
  paths <> [] ->
  load_documents w fs self paths = inr self' <->
  exists chunks,
    load_pages w fs paths [] <> []
    /\ split_documents w (load_pages w fs paths []) = inr chunks
    /\ chunks <> []
    /\ embed_documents w chunks = None
    /\ self' = set_vector_store self (vector_store self ++ chunks).
Proof.
  intros Hp. unfold load_documents, add_documents, try_except, ebind, raise_if_some.
  destruct paths as [|p rest]; [congruence|]. cbn [is_empty].
  destruct (load_pages w fs (p :: rest) []) as [|d docs] eqn:Hd; cbn [is_empty].
  { split; [discriminate | intros (? & ? & _); congruence]. }
  destruct (split_documents w (d :: docs)) as [e|chunks]; cbn [is_empty].
  { split; [discriminate | intros (? & _ & ? & _); congruence]. }
  destruct chunks as [|c chunks]; cbn [is_empty].
  { split; [discriminate | intros (? & _ & [= <-] & ? & _); congruence]. }
  destruct (embed_documents w (c :: chunks)) as [e|] eqn:He.
  { split; [discriminate | intros (? & _ & [= <-] & _ & ? & _); congruence]. }
  split.
  - intros [= <-]. exists (c :: chunks). rewrite He. repeat split; congruence.
  - intros (? & _ & [= <-] & _ & _ & ->). reflexivity.
Qed.

(** Whatever [load_documents] raises is a plain [Exception]. *)
Lemma load_documents_inl self paths e :
  load_documents w fs self paths = inl e -> exists m, e = Exception m.
Proof.
  unfold load_documents, add_documents, try_except, ebind, raise_if_some.
  destruct (is_empty paths); [discriminate|].
  destruct (is_empty (load_pages w fs paths [])); [intros [= <-]; eauto|].
  destruct (split_documents w (load_pages w fs paths [])) as [e'|chunks].
  { intros [= <-]; eauto. }
  destruct (is_empty chunks); [intros [= <-]; eauto|].
  destruct (embed_documents w chunks); [intros [= <-]; eauto | discriminate].
Qed.

(** The pages read for a single path that names a file and is a PDF name. *)
Lemma load_pages_single path k bytes :
  os.resolve fs path = inr k ->
  fs !! k = Some (File bytes) -> is_pdf path = true ->
  load_pages w fs [path] [] =
  match pdf_loader w path bytes with
  | inr pages => pages
  | inl _ => []
  end.
Proof.
  intros Hr Hf Hpdf. cbn [load_pages]. unfold os.path_exists, load_pdf.
  rewrite Hr, Hf, Hpdf. cbn [negb].
  destruct (pdf_loader w path bytes) as [e|pages]; [reflexivity|].
  destruct pages; reflexivity.
Qed.

End Loading.

(** ** The handlers *)

Ltac unfold_h :=
  unfold serve, htry_reraising_http, htry, hbind, hget, hput, hlift, hraise, hret.

Section Handlers.

Variable w : World.

Implicit Types (s : Server) (file : UploadFile).

Lemma is_pdf_truthy name : is_pdf name = true -> Py.truthy name = true.
Proof. destruct name; [discriminate | reflexivity]. Qed.

(** The path of the PDFs directory is absolute and in normal form. *)
Lemma pdfs_dir_normal s : os.normal (pdfs_dir s) = true.
Proof.
  unfold pdfs_dir. apply normal_path_join; [apply abs_normal | reflexivity].
Qed.

(** An upload whose name is not a PDF name is answered 400 and changes
    nothing. *)
Lemma upload_pdf_not_pdf s agent file :
  my_rag_agent s = Some agent ->
  is_pdf (upload_name file) = false ->
  exists detail,
    serve (upload_pdf w file) s = (Failure 400 detail, s)
    /\ (detail = "No file provided" \/ detail = "Only PDF files are allowed").
Proof.
  intros Ha Hn. unfold upload_pdf, upload_name in *. unfold_h. rewrite Ha.
  destruct (filename file) as [name|]; [|eauto].
  change (is_pdf name = false) in Hn.
  destruct (Py.truthy name); cbn [negb]; [|eauto].
  rewrite Hn. cbn [negb]. eauto.
Qed.

(** The second check: a filename that is there and does not end in
    '.pdf'. *)
Lemma upload_pdf_other_type s agent file name :
  my_rag_agent s = Some agent ->
  filename file = Some name ->
  Py.truthy name = true ->
  is_pdf name = false ->
  serve (upload_pdf w file) s = (Failure 400 "Only PDF files are allowed", s).
Proof.
  intros Ha Hf Ht Hn. unfold upload_pdf. unfold_h.
  rewrite Ha, Hf, Ht, Hn. reflexivity.
Qed.

(** An upload with a PDF name and more bytes than the limit is answered 413
    and changes nothing. *)
Lemma upload_pdf_too_large s agent file :
  my_rag_agent s = Some agent ->
  is_pdf (upload_name file) = true ->
  max_upload < len (file_bytes file) ->
  serve (upload_pdf w file) s =
  (Failure 413 "File too large. Maximum size is 50MB.", s).
Proof.
  intros Ha Hn Hlen. unfold upload_pdf, upload_name in *. unfold_h. rewrite Ha.
  destruct (filename file) as [name|]; [|discriminate].
  change (is_pdf name = true) in Hn.
  rewrite (is_pdf_truthy name Hn), Hn. cbn [negb].
  apply Z.ltb_lt in Hlen. rewrite Hlen. reflexivity.
Qed.

(** The steps of an upload that passed the checks. *)
Lemma upload_pdf_accepted s agent file name :
  my_rag_agent s = Some agent ->
  filename file = Some name ->
  is_pdf name = true ->
  len (file_bytes file) <= max_upload ->
  let path := os.path_join (pdfs_dir s) name in
  upload_pdf w file s =
  match os.write_bytes path (file_bytes file) (files s) with
  | inl e => (inl (HTTPException 500 ("Internal server error: " +:+ str e)), s)
  | inr fs =>
      match load_documents w fs agent [path] with
      | inl e =>
          (inl (HTTPException 500 ("Internal server error: " +:+ str e)),
           set_files s fs)
      | inr agent' =>
          (inr {| upload_message := "Successfully uploaded and processed " +:+ name;
                  upload_filename := name;
                  upload_status := "success" |},
           set_agent (set_files s fs) agent')
      end
  end.
Proof.
  intros Ha Hf Hn Hlen path. unfold upload_pdf. unfold_h. rewrite Ha, Hf.
  rewrite (is_pdf_truthy name Hn), Hn. cbn [negb].
  apply Z.ltb_ge in Hlen. rewrite Hlen. fold path.
  destruct (os.write_bytes path (file_bytes file) (files s)) as [e|fs] eqn:Hw.
  - unfold os.write_bytes in Hw.
    destruct (os.resolve (files s) path) as [e'|k] eqn:Hr.
    + injection Hw as <-. unfold os.resolve in Hr.
      destruct (files s !! path); [discriminate|].
      destruct (Py.truthy path); [|injection Hr as <-; reflexivity].
      apply walk_inl in Hr as [m ->]. reflexivity.
    + destruct (files s !! k) as [[bytes|]|]; [discriminate | |].
      * injection Hw as <-. reflexivity.
      * destruct (Py.truthy k); [discriminate|]. injection Hw as <-. reflexivity.
  - destruct (load_documents w fs agent [path]) as [e|agent'] eqn:Hl;
      [|reflexivity].
    apply load_documents_inl in Hl as [m ->]. reflexivity.
Qed.

(** What a successful upload went through. *)
Lemma upload_pdf_success_inv s file body s' :
  serve (upload_pdf w file) s = (Success body, s') ->
  exists agent name agent' k,
    my_rag_agent s = Some agent
    /\ filename file = Some name
    /\ is_pdf name = true
    /\ len (file_bytes file) <= max_upload
    /\ os.resolve (files s) (os.path_join (pdfs_dir s) name) = inr k
    /\ files s !! k <> Some Dir
    /\ load_documents w (<[k := File (file_bytes file)]> (files s))
         agent [os.path_join (pdfs_dir s) name] = inr agent'
    /\ s' = set_agent (set_files s (<[k := File (file_bytes file)]> (files s)))
              agent'
    /\ body = {| upload_message := "Successfully uploaded and processed " +:+ name;
                 upload_filename := name;
                 upload_status := "success" |}.
Proof.
  destruct (my_rag_agent s) as [agent|] eqn:Ha.
  2:{ unfold upload_pdf. unfold_h. rewrite Ha. discriminate. }
  destruct (is_pdf (upload_name file)) eqn:Hn.
  2:{ destruct (upload_pdf_not_pdf s agent file Ha Hn) as (d & -> & _).
      discriminate. }
  destruct (Z.ltb_spec max_upload (len (file_bytes file))) as [Hlen|Hlen].
  { rewrite (upload_pdf_too_large s agent file Ha Hn Hlen). discriminate. }
  unfold upload_name in Hn.
  destruct (filename file) as [name|] eqn:Hf; [|discriminate].
  change (is_pdf name = true) in Hn.
  unfold serve. rewrite (upload_pdf_accepted s agent file name Ha Hf Hn Hlen).
  destruct (os.write_bytes _ _ _) as [e|fs] eqn:Hw; [discriminate|].
  apply write_bytes_inr in Hw as (k & Hr & Hk & ->).
  destruct (load_documents w _ agent _) as [e|agent'] eqn:Hl; [discriminate|].
  cbn [respond]. intros [= <- <-]. exists agent, name, agent', k.
  repeat split; try assumption; reflexivity.
Qed.

(** A message that is blank is turned away before the agent is asked. *)
Lemma chat_blank s msg :
  Py.truthy (Py.strip msg) = false ->
  serve (chat w msg) s =
  (match my_rag_agent s with
   | Some _ => Failure 400 "Message cannot be empty"
   | None => Failure 503
       "RAG Agent is not initialized. Please check server configuration."
   end, s).
Proof.
  intros Hm. unfold chat. unfold_h.
  destruct (my_rag_agent s); [rewrite Hm|]; reflexivity.
Qed.

(** A message that is not blank is answered with what [ask] returns. *)
Lemma chat_answered s agent msg :
  my_rag_agent s = Some agent ->
  Py.truthy (Py.strip msg) = true ->
  let a := generated w (prompt_of w agent (Py.strip msg)) in
  serve (chat w msg) s =
  (Success {| response := a; chat_status := "success" |},
   set_agent s (set_chat_history agent
     (Py.last_n 20 (chat_history agent
                    ++ [HumanMessage (Py.strip msg); AIMessage a])))).
Proof.
  intros Ha Hm a. unfold chat. unfold_h. rewrite Ha, Hm. cbn [negb].
  unfold result. rewrite (ask_eq w agent msg Hm). reflexivity.
Qed.

(** The loop of [reset_documents] touches the files only; it never adds
    one, and where it ends without raising, every PDF name it was given is
    gone from the directory. *)
Lemma remove_pdfs_spec d names s r s' :
  remove_pdfs d names s = (r, s') ->
  my_rag_agent s' = my_rag_agent s
  /\ GEMINI_API_KEY s' = GEMINI_API_KEY s
  /\ module_dir s' = module_dir s
  /\ (forall p, is_Some (files s' !! p) -> is_Some (files s !! p))
  /\ (r = inr tt -> forall n, n ∈ names -> is_pdf n = true ->
      files s' !! os.path_join d n = None).
Proof.
  revert s. induction names as [|name rest IH]; intros s.
  - cbn. intros [= <- <-]. repeat split; try tauto.
    intros _ n Hn. apply elem_of_nil in Hn. contradiction.
  - cbn [remove_pdfs]. unfold hbind at 1.
    destruct (is_pdf name) eqn:Hpdf.
    + unfold hbind, hget, hlift, hput.
      destruct (os.remove (os.path_join d name) (files s)) as [e|fs] eqn:Hrm.
      * intros [= <- <-]. repeat split; try tauto. discriminate.
      * apply remove_inr in Hrm as (k & bytes & Hres & Hfile & ->).
        intros Hrest. apply IH in Hrest as (Ha & Hk & Hm & Hsub & Hgone).
        cbn in Ha, Hk, Hm. repeat split; try assumption.
        { intros p Hp'. apply Hsub in Hp'. cbn in Hp'.
          destruct (decide (k = p)) as [<-|Hne].
          - rewrite lookup_delete_eq in Hp'. destruct Hp' as [? [=]].
          - rewrite lookup_delete_ne in Hp' by exact Hne. exact Hp'. }
        intros Hr n [->|Hn]%elem_of_cons Hn'; [|apply Hgone; assumption].
        destruct (files s' !! os.path_join d name) eqn:Hs'; [|reflexivity].
        assert (Hsome : is_Some (files s' !! os.path_join d name)) by eauto.
        apply Hsub in Hsome. cbn in Hsome.
        destruct (decide (k = os.path_join d name)) as [->|Hne].
        { rewrite lookup_delete_eq in Hsome. destruct Hsome as [? [=]]. }
        rewrite lookup_delete_ne in Hsome by exact Hne.
        destruct Hsome as [x Hx]. rewrite (resolve_key _ _ x Hx) in Hres.
        congruence.
    + unfold hret. intros Hrest.
      apply IH in Hrest as (Ha & Hk & Hm & Hsub & Hgone).
      repeat split; try assumption.
      intros Hr n [->|Hn]%elem_of_cons Hn'; [congruence|].
      apply Hgone; assumption.
Qed.


(** A fresh agent has nothing stored and nothing said. *)
Lemma init_fresh key agent :
  _init_ w key = inr agent ->
  agent = {| gemini_api_key := key; vector_store := []; chat_history := [] |}.
Proof.
  unfold _init_, try_except, ebind, raise_if_some.
  destruct (Py.truthy key); cbn [negb]; [|discriminate].
  destruct (sdk_setup w key); [discriminate|]. intros [= <-]. reflexivity.
Qed.

Lemma get_status_eq s :
  serve get_status s =
  (Success {| status := "running";
              rag_agent_ready :=
                match my_rag_agent s with Some _ => true | None => false end;
              pdfs_directory := pdfs_dir s;
              documents_loaded :=
                len_names (filter_pdf (os.listdir (pdfs_dir s) (files s))) |},
   s).
Proof. reflexivity. Qed.

(** The names the status counts: each once, and exactly the PDF names under
    which the directory holds a node. *)
Lemma counted_names d fs :
  NoDup (filter_pdf (os.listdir d fs))
  /\ forall n, n ∈ filter_pdf (os.listdir d fs) <->
       is_pdf n = true /\ os.plain n = true /\ is_Some (fs !! os.path_join d n).
Proof.
  unfold filter_pdf. split.
  - apply NoDup_filter, NoDup_listdir.
  - intros n. rewrite list_elem_of_filter, elem_of_listdir. tauto.
Qed.

End Handlers.

(** ** Whether the agent is there *)

Section Readiness.

Implicit Types (s : Server) (w : World).

Lemma serve_snd {A} (h : H A) s : snd (serve h s) = snd (h s).
Proof. unfold serve. destruct (h s). reflexivity. Qed.

Lemma upload_pdf_agent_ready w file s :
  is_Some (my_rag_agent (snd (upload_pdf w file s))) <-> is_Some (my_rag_agent s).
Proof.
  destruct (my_rag_agent s) as [agent|] eqn:Ha.
  2:{ unfold upload_pdf. unfold_h. rewrite Ha. cbn. rewrite Ha. tauto. }
  rewrite <- serve_snd. rewrite <- Ha.
  destruct (is_pdf (upload_name file)) eqn:Hn.
  2:{ destruct (upload_pdf_not_pdf w s agent file Ha Hn) as (d & -> & _). tauto. }
  destruct (Z.ltb_spec max_upload (len (file_bytes file))) as [Hlen|Hlen].
  { rewrite (upload_pdf_too_large w s agent file Ha Hn Hlen). tauto. }
  unfold upload_name in Hn.
  destruct (filename file) as [name|] eqn:Hf; [|discriminate].
  change (is_pdf name = true) in Hn.
  unfold serve. rewrite (upload_pdf_accepted w s agent file name Ha Hf Hn Hlen).
  destruct (os.write_bytes _ _ _) as [e|fs]; [tauto|].
  destruct (load_documents w fs agent _) as [e|agent']; cbn; rewrite Ha;
    split; eauto.
Qed.

Lemma chat_agent_ready w msg s :
  is_Some (my_rag_agent (snd (chat w msg s))) <-> is_Some (my_rag_agent s).
Proof.
  rewrite <- serve_snd.
  destruct (Py.truthy (Py.strip msg)) eqn:Hm.
  - destruct (my_rag_agent s) as [agent|] eqn:Ha.
    + rewrite (chat_answered w s agent msg Ha Hm). cbn. split; eauto.
    + unfold chat. unfold_h. rewrite Ha. cbn. rewrite Ha. tauto.
  - rewrite (chat_blank w s msg Hm). tauto.
Qed.

Lemma reset_documents_agent_ready w s :
  is_Some (my_rag_agent (snd (reset_documents w s))) <-> is_Some (my_rag_agent s).
Proof.
  unfold reset_documents. unfold_h.
  destruct (my_rag_agent s) as [agent|] eqn:Ha; [|cbn; rewrite Ha; tauto].
  destruct (remove_pdfs _ _ s) as [r s1] eqn:Hrm.
  apply remove_pdfs_spec in Hrm as (Hs1 & _). rewrite Ha in Hs1.
  destruct r as [e|[]]; [cbn; rewrite Hs1; split; eauto|].
  destruct (key_value (GEMINI_API_KEY s)) as [key|];
    [|cbn; rewrite Hs1; split; eauto].
  destruct (_init_ w key); cbn; [rewrite Hs1|]; split; eauto.
Qed.

(** No request makes the agent where there was none, and none takes it
    away. *)
Lemma handle_agent_ready w req s :
  is_Some (my_rag_agent (snd (handle w req s))) <-> is_Some (my_rag_agent s).
Proof.
  destruct req as [file|msg| | |]; cbn [handle].
  - rewrite <- (upload_pdf_agent_ready w file s), <- serve_snd.
    destruct (serve (upload_pdf w file) s). reflexivity.
  - rewrite <- (chat_agent_ready w msg s), <- serve_snd.
    destruct (serve (chat w msg) s). reflexivity.
  - reflexivity.
  - reflexivity.
  - rewrite <- (reset_documents_agent_ready w s), <- serve_snd.
    destruct (serve (reset_documents w) s). reflexivity.
Qed.

Lemma run_agent_ready reqs s :
  is_Some (my_rag_agent (run reqs s)) <-> is_Some (my_rag_agent s).
Proof.
  revert s. induction reqs as [|[w req] rest IH]; intros s; cbn [run];
    [reflexivity|].
  rewrite IH. apply handle_agent_ready.
Qed.

Lemma startup_agent_ready w env_key dir fs :
  is_Some (my_rag_agent (startup w env_key dir fs)) <->
  exists key agent, key_value env_key = Some key /\ _init_ w key = inr agent.
Proof.
  unfold startup. cbn [my_rag_agent].
  destruct (key_value env_key) as [key|].
  - destruct (_init_ w key) as [e|agent] eqn:Hi.
    + split; [intros [? [=]] | intros (k & a & [= <-] & Hk); congruence].
    + split; eauto.
  - split; [intros [? [=]] | intros (k & a & [=] & _)].
Qed.

End Readiness.

(** ** Reset *)



(** ** The chat history *)

(** C2: when a call of ask returns, the turn of that call - the question as
    ask hands it to the pipeline (stripped of surrounding whitespace) and the
    answer returned - stands at the end of the chat history, which is the
    last twenty entries of the old history with the turn appended; what lay
    before them is dropped. *)
Theorem ask_appends_turn w self q a self' :
  result (ask w self q) = inr (a, self') ->
  chat_history self' =
    Py.last_n 20 (chat_history self ++ [HumanMessage (Py.strip q); AIMessage a])
  /\ chat_history self' =
       Py.last_n 18 (chat_history self) ++ [HumanMessage (Py.strip q); AIMessage a]
  /\ (length (chat_history self') <= 20)%nat
  /\ (exists older,
        chat_history self ++ [HumanMessage (Py.strip q); AIMessage a]
        = older ++ chat_history self')
  /\ vector_store self' = vector_store self.
Proof.
  destruct (Py.truthy (Py.strip q)) eqn:Hq.
  2:{ rewrite (ask_blank w self q Hq). discriminate. }
  rewrite (ask_eq w self q Hq). cbn [result fst]. intros [= <- <-].
  cbn [chat_history set_chat_history vector_store].
  split; [reflexivity|]. split; [apply (last_n_app 20); cbn; lia|].
  split; [apply last_n_length|]. split; [|reflexivity].
  eexists. unfold Py.last_n. symmetry. apply take_drop.
Qed.

(** ** Chat *)

(** C3 (as amended): on a server with an initialised agent, a message that is
    not blank is always answered 200 with status "success"; a failure of the
    generation call is caught inside the generate step, the response text is
    then the fixed apology and not the failure's message, and the turn is
    recorded in the chat history like any other. *)
Theorem chat_not_blank_succeeds w s agent msg :
  my_rag_agent s = Some agent ->
  ~ blank msg ->
  exists a s',
    serve (chat w msg) s =
      (Success {| response := a; chat_status := "success" |}, s')
    /\ a = generated w (prompt_of w agent (Py.strip msg))
    /\ (forall e,
          generate_content w (prompt_of w agent (Py.strip msg)) = inl e ->
          a = error_message)
    /\ my_rag_agent s' =
         Some (set_chat_history agent
                 (Py.last_n 20 (chat_history agent
                                ++ [HumanMessage (Py.strip msg); AIMessage a]))).
Proof.
  intros Ha Hm%strip_truthy.
  eexists _, _. split; [apply (chat_answered w s agent msg Ha Hm)|].
  split; [reflexivity|]. split; [|reflexivity].
  intros e He. unfold generated. rewrite He. reflexivity.
Qed.

(** C5 (as amended): a message that is empty or all whitespace is turned
    away without anything being changed: with status 400 and detail "Message
    cannot be empty" where the agent is initialised, with status 503 where
    it is not. *)
Theorem chat_blank_rejected w s msg :
  blank msg ->
  (is_Some (my_rag_agent s) ->
     serve (chat w msg) s = (Failure 400 "Message cannot be empty", s))
  /\ (my_rag_agent s = None ->
     serve (chat w msg) s =
       (Failure 503
          "RAG Agent is not initialized. Please check server configuration.",
        s)).
Proof.
  intros Hm%strip_empty_iff. rewrite (chat_blank w s msg Hm).
  split; [intros [agent ->] | intros ->]; reflexivity.
Qed.

(** ** Upload: the checks *)

(** C4 (as amended): on a server with an initialised agent, an upload whose
    filename does not end in '.pdf' (in whatever case; a missing filename
    counts as such) is answered 400, and an upload whose filename does end in
    '.pdf' and whose content is longer than 50 * 1024 * 1024 bytes is
    answered 413; either way the server is left as it was: no file written,
    the vector store untouched. *)
Theorem upload_pdf_rejections w s agent file :
  my_rag_agent s = Some agent ->
  (is_pdf (upload_name file) = false ->
     exists detail, serve (upload_pdf w file) s = (Failure 400 detail, s))
  /\ (is_pdf (upload_name file) = true ->
      50 * 1024 * 1024 < len (file_bytes file) ->
      serve (upload_pdf w file) s =
        (Failure 413 "File too large. Maximum size is 50MB.", s)).
Proof.
  intros Ha. split.
  - intros Hn. destruct (upload_pdf_not_pdf w s agent file Ha Hn) as (d & Hd & _).
    eauto.
  - intros Hn Hlen. apply (upload_pdf_too_large w s agent file Ha Hn Hlen).
Qed.

(** ** Status *)

Lemma length_filter_all {A} (P : A -> Prop) `{forall x, Decision (P x)}
    (l : list A) :
  length (filter P l) = length l <-> forall x, x ∈ l -> P x.
Proof.
  split.
  - intros Hlen x Hx. destruct (decide (P x)) as [Hp|Hp]; [exact Hp|].
    pose proof (length_filter_lt P l x Hx Hp). lia.
  - intros Hall. induction l as [|x l IH]; [reflexivity|].
    rewrite filter_cons_True by (apply Hall; left). cbn [length].
    rewrite IH; [reflexivity|]. intros y Hy. apply Hall. right. exact Hy.
Qed.

(** C6 (as amended): whatever requests the server has served since it
    started, GET /status answers 200; documents_loaded is the number of
    entries of the PDFs directory, files and directories alike, whose names
    end in a dot followed by p, d and f in either case, each entry counted
    once; it is the number of the files among them exactly when none of
    them is a directory; and rag_agent_ready is true exactly when the agent
    was built at start-up. *)
Theorem status_counts_pdfs w0 env_key dir fs0 reqs :
  let s := run reqs (startup w0 env_key dir fs0) in
  exists st names,
    serve get_status s = (Success st, s)
    /\ NoDup names
    /\ (forall n, n ∈ names <->
          ends_in_pdf n /\ os.plain n = true
          /\ is_Some (files s !! os.path_join (pdfs_dir s) n))
    /\ documents_loaded st = Z.of_nat (length names)
    /\ (documents_loaded st = Z.of_nat (length (pdf_files s)) <->
        forall n, n ∈ names ->
          files s !! os.path_join (pdfs_dir s) n <> Some Dir)
    /\ (rag_agent_ready st = true <->
        exists key agent,
          key_value env_key = Some key /\ _init_ w0 key = inr agent).
Proof.
  intros s.
  exists {| status := "running";
            rag_agent_ready :=
              match my_rag_agent s with Some _ => true | None => false end;
            pdfs_directory := pdfs_dir s;
            documents_loaded :=
              len_names (filter_pdf (os.listdir (pdfs_dir s) (files s))) |},
         (filter_pdf (os.listdir (pdfs_dir s) (files s))).
  destruct (counted_names (pdfs_dir s) (files s)) as [Hnodup Hin].
  split; [apply get_status_eq|]. split; [exact Hnodup|].
  split; [intros n; rewrite Hin, is_pdf_ends_in_pdf; reflexivity|].
  split; [reflexivity|]. cbn [rag_agent_ready documents_loaded]. split.
  - unfold len_names, pdf_files. rewrite Nat2Z.inj_iff.
    split; [intros Hlen; symmetry in Hlen | intros Hall; symmetry];
      rewrite length_filter_all in *.
    + intros n Hn. specialize (Hlen n Hn). cbn beta in Hlen.
      destruct (files s !! os.path_join (pdfs_dir s) n) as [[?|]|];
        discriminate.
    + intros n Hn. specialize (Hall n Hn). cbn beta.
      apply Hin in Hn as (_ & _ & [x Hx]). rewrite Hx in *.
      destruct x; [reflexivity | congruence].
  - assert (Hready : is_Some (my_rag_agent s) <->
                     exists key agent,
                       key_value env_key = Some key /\ _init_ w0 key = inr agent).
    { unfold s. rewrite run_agent_ready. apply startup_agent_ready. }
    rewrite <- Hready. clear Hready.
    destruct (my_rag_agent s) as [agent|]; split.
    + intros _. exists agent. reflexivity.
    + reflexivity.
    + discriminate.
    + intros [? [=]].
Qed.

(** ** The two steps of a question *)

(** C7 (as amended): a call of ask whose question is not blank makes exactly
    these calls, in this order: it enters retrieve, which runs the similarity
    search of the vector store with the stripped question and k = 4; it
    enters generate, which calls the generation service with the prompt
    composed of the retrieved context, the chat history and the question.
    Each node makes its one call and no other. *)
Theorem ask_runs_retrieve_then_generate w self q :
  ~ blank q ->
  trace (ask w self q) =
    [Enter "retrieve";
     SimilaritySearch (Py.strip q) 4;
     Enter "generate";
     GenerateContent
       (prompt_text (retrieved w self (Py.strip q)) (chat_history self)
                    (Py.strip q))]
  /\ (forall st, question st = Py.strip q ->
        trace (retrieve w self st) = [SimilaritySearch (Py.strip q) 4])
  /\ (forall st,
        trace (generate w self st) =
        [GenerateContent
           (prompt_text (context st) (messages st) (question st))]).
Proof.
  intros Hq%strip_truthy. split; [|split].
  - rewrite (ask_eq w self q Hq). reflexivity.
  - intros st Hst. rewrite retrieve_eq by (rewrite Hst; exact Hq).
    rewrite Hst. reflexivity.
  - intros st. rewrite generate_eq. reflexivity.
Qed.

(** C10: when the similarity search that a call of ask makes in its retrieve
    step raises, retrieve returns the empty context, generate is still
    entered and calls the service with a prompt composed without any
    document, and ask returns the text so generated instead of raising. *)
Theorem retrieval_failure_is_absorbed w self q query k e :
  SimilaritySearch query k ∈ trace (ask w self q) ->
  similarity_search w (vector_store self) query k = inl e ->
  (forall st, question st = query ->
     result (retrieve w self st) = inr [SetContext []])
  /\ exists self',
       ask w self q =
       (inr (generated w (prompt_text [] (chat_history self) query), self'),
        [Enter "retrieve";
         SimilaritySearch query k;
         Enter "generate";
         GenerateContent (prompt_text [] (chat_history self) query)]).
Proof.
  destruct (Py.truthy (Py.strip q)) eqn:Hq.
  2:{ rewrite (ask_blank w self q Hq). intros Hin. apply elem_of_nil in Hin.
      contradiction. }
  rewrite (ask_eq w self q Hq). cbn [trace snd]. intros Hin He.
  assert (Hcall : query = Py.strip q /\ k = 4%nat).
  { repeat (apply elem_of_cons in Hin as [Hin|Hin]; [try discriminate Hin|]).
    - injection Hin as -> ->. split; reflexivity.
    - apply elem_of_nil in Hin. contradiction. }
  destruct Hcall as [-> ->].
  assert (Hr : retrieved w self (Py.strip q) = []).
  { unfold retrieved. rewrite He. reflexivity. }
  split.
  - intros st Hst. rewrite retrieve_eq by (rewrite Hst; exact Hq).
    rewrite Hst, Hr. reflexivity.
  - eexists. unfold prompt_of. rewrite Hr. reflexivity.
Qed.

(** ** Upload: the index *)

Lemma listdir_insert_new d fs n x :
  os.plain n = true -> fs !! os.path_join d n = None ->
  os.listdir d (<[os.path_join d n := x]> fs) ≡ₚ n :: os.listdir d fs.
Proof.
  intros Hn Hnew. unfold os.listdir.
  rewrite (map_to_list_insert fs _ x Hnew). cbn [fmap list_fmap fst omap list_omap].
  rewrite (entry_name_join d n Hn). reflexivity.
Qed.

(** C8: a successful POST /upload-pdf puts the chunks of the uploaded file -
    what the splitter makes of the pages the parser reads in it - at the end
    of the vector store: the chunks that were there are still there, in
    place, and the chat history is as it was.  Nothing is looked up before
    adding: the same upload made again succeeds again and the same chunks
    stand in the store a second time. *)
Theorem upload_appends_chunks w s file body s' :
  serve (upload_pdf w file) s = (Success body, s') ->
  exists agent agent' name pages chunks,
    my_rag_agent s = Some agent
    /\ my_rag_agent s' = Some agent'
    /\ filename file = Some name
    /\ pdf_loader w (os.path_join (pdfs_dir s) name) (file_bytes file) = inr pages
    /\ split_documents w pages = inr chunks
    /\ chunks <> []
    /\ vector_store agent' = vector_store agent ++ chunks
    /\ (forall c, c ∈ vector_store agent -> c ∈ vector_store agent')
    /\ chat_history agent' = chat_history agent
    /\ exists s'' agent'',
         serve (upload_pdf w file) s' = (Success body, s'')
         /\ my_rag_agent s'' = Some agent''
         /\ vector_store agent'' = vector_store agent ++ chunks ++ chunks
         /\ chat_history agent'' = chat_history agent.
Proof.
  intros (agent & name & agent' & k & Ha & Hf & Hn & Hlen & Hres & Hnd & Hl & -> & ->)
    %upload_pdf_success_inv.
  set (path := os.path_join (pdfs_dir s) name) in *.
  set (fs := <[k := File (file_bytes file)]> (files s)) in *.
  assert (Hfile : fs !! k = Some (File (file_bytes file)))
    by apply lookup_insert_eq.
  assert (Hres' : os.resolve fs path = inr k)
    by (apply resolve_insert_file; assumption).
  assert (Hpath : is_pdf path = true) by apply is_pdf_path_join, Hn.
  pose proof Hl as Hl'.
  apply load_documents_inr in Hl' as (chunks & Hpages & Hsplit & Hne & Hemb & Hagent');
    [|discriminate].
  rewrite (load_pages_single w fs path k _ Hres' Hfile Hpath) in Hpages, Hsplit.
  destruct (pdf_loader w path (file_bytes file)) as [e|pages] eqn:Hload;
    [congruence|].
  exists agent, agent', name, pages, chunks.
  split; [exact Ha|]. split; [reflexivity|]. split; [exact Hf|].
  split; [exact Hload|]. split; [exact Hsplit|]. split; [exact Hne|].
  subst agent'. cbn [vector_store chat_history set_vector_store].
  split; [reflexivity|].
  split; [intros c Hc; apply elem_of_app; left; exact Hc|].
  split; [reflexivity|].
  set (agent' := set_vector_store agent (vector_store agent ++ chunks)) in *.
  set (s' := set_agent (set_files s fs) agent').
  assert (Hagain : load_documents w fs agent' [path]
                   = inr (set_vector_store agent' (vector_store agent' ++ chunks))).
  { apply load_documents_inr; [discriminate|]. exists chunks.
    rewrite (load_pages_single w fs path k _ Hres' Hfile Hpath), Hload. tauto. }
  pose proof (upload_pdf_accepted w s' agent' file name eq_refl Hf Hn Hlen) as Hup.
  change (os.path_join (pdfs_dir s') name) with path in Hup.
  change (files s') with fs in Hup.
  unfold os.write_bytes in Hup. rewrite Hres', Hfile in Hup.
  replace (<[k := File (file_bytes file)]> fs) with fs in Hup
    by (unfold fs; rewrite insert_insert_eq; reflexivity).
  rewrite Hagain in Hup.
  eexists _, _. unfold serve. rewrite Hup. cbn [respond].
  split; [reflexivity|]. split; [reflexivity|].
  cbn [vector_store chat_history set_vector_store agent'].
  split; [rewrite <- app_assoc; reflexivity | reflexivity].
Qed.

(** C9 (as amended): for an upload whose filename is a plain name, without a
    path separator: when load_documents raises on the file that POST
    /upload-pdf has just written, the request is answered 500 with the
    exception's message, the agent is as it was (none of the file's chunks
    is in the vector store), and the file stays in the PDFs directory: GET
    /status counts it in documents_loaded, which is one more than before
    when the name is new. *)
Theorem upload_not_atomic w s agent name bytes fs e :
  my_rag_agent s = Some agent ->
  is_pdf name = true ->
  os.plain name = true ->
  len bytes <= max_upload ->
  os.write_bytes (os.path_join (pdfs_dir s) name) bytes (files s) = inr fs ->
  load_documents w fs agent [os.path_join (pdfs_dir s) name] = inl e ->
  exists s' st,
    serve (upload_pdf w {| filename := Some name; file_bytes := bytes |}) s
      = (Failure 500 ("Internal server error: " +:+ str e), s')
    /\ files s' !! os.path_join (pdfs_dir s') name = Some (File bytes)
    /\ my_rag_agent s' = Some agent
    /\ serve get_status s' = (Success st, s')
    /\ name ∈ filter_pdf (os.listdir (pdfs_dir s') (files s'))
    /\ documents_loaded st
       = len_names (filter_pdf (os.listdir (pdfs_dir s') (files s')))
    /\ 1 <= documents_loaded st
    /\ (files s !! os.path_join (pdfs_dir s) name = None ->
        documents_loaded st
        = len_names (filter_pdf (os.listdir (pdfs_dir s) (files s))) + 1).
Proof.
  intros Ha Hn Hplain Hlen Hw Hl.
  set (path := os.path_join (pdfs_dir s) name) in *.
  pose proof (upload_pdf_accepted w s agent
                {| filename := Some name; file_bytes := bytes |} name
                Ha eq_refl Hn Hlen) as Hup.
  cbn [file_bytes] in Hup. fold path in Hup.
  rewrite Hw, Hl in Hup.
  apply write_bytes_entry in Hw as [-> Hnd];
    [|apply pdfs_dir_normal | apply is_pdf_ordinary; assumption].
  fold path in Hup, Hl |- *.
  set (fs := <[path := File bytes]> (files s)) in *.
  assert (Hin : name ∈ filter_pdf (os.listdir (pdfs_dir s) fs)).
  { apply counted_names. split; [exact Hn|]. split; [exact Hplain|].
    fold path. unfold fs. rewrite lookup_insert_eq. eauto. }
  eexists (set_files s fs), _.
  split; [unfold serve; rewrite Hup; reflexivity|].
  split; [apply lookup_insert_eq|]. split; [exact Ha|].
  split; [apply get_status_eq|]. split; [exact Hin|].
  split; [reflexivity|]. cbn [documents_loaded].
  change (pdfs_dir (set_files s fs)) with (pdfs_dir s).
  change (files (set_files s fs)) with fs.
  split.
  - unfold len_names.
    destruct (filter_pdf (os.listdir (pdfs_dir s) fs));
      [apply elem_of_nil in Hin; contradiction | cbn [length]; lia].
  - intros Hnew. unfold len_names, filter_pdf, fs, path.
    rewrite (listdir_insert_new (pdfs_dir s) (files s) name _ Hplain Hnew).
    rewrite filter_cons_True by exact Hn. cbn [length]. lia.
Qed.

(** ** The theorems at work on the sample server *)

Lemma not_blank_by_strip s : Py.truthy (Py.strip s) = true -> ~ blank s.
Proof. intros Ht Hb%strip_empty_iff. congruence. Qed.

Lemma oversized_len : len Sample.oversized = 52428801.
Proof.
  unfold len, Sample.oversized. rewrite repeat_length. apply N_nat_Z.
Qed.


(** A twenty-first and twenty-second entry push the oldest turn out. *)
Lemma ask_appends_turn_witness :
  let self' :=
    set_chat_history Sample.talkative
      (drop 2 (chat_history Sample.talkative)
       ++ [HumanMessage "more?"; AIMessage "It says hello."]) in
  result (ask Sample.world Sample.talkative " more? ")
    = inr ("It says hello.", self')
  /\ chat_history self'
     = Py.last_n 18 (chat_history Sample.talkative)
       ++ [HumanMessage (Py.strip " more? "); AIMessage "It says hello."]
  /\ (length (chat_history self') <= 20)%nat.
Proof.
  intros self'.
  assert (H : result (ask Sample.world Sample.talkative " more? ")
              = inr ("It says hello.", self'))
    by (vm_compute; reflexivity).
  pose proof (ask_appends_turn _ _ _ _ _ H) as (_ & H18 & Hlen & _).
  exact (conj H (conj H18 Hlen)).
Defined.

(** Against C3 as it was stated: with the generation service down, the
    request is answered 200 and carries the apology, not a 500 with the
    failure's message. *)
Lemma chat_generation_failure_answers_200 :
  ~ blank "q"
  /\ generate_content Sample.world_no_llm
       (prompt_of Sample.world_no_llm Sample.agent (Py.strip "q"))
     = inl (Exception "503 Service Unavailable")
  /\ fst (serve (chat Sample.world_no_llm "q") Sample.server)
     = Success {| response := error_message; chat_status := "success" |}
  /\ status_code (fst (serve (chat Sample.world_no_llm "q") Sample.server)) = 200.
Proof.
  split; [apply not_blank_by_strip; reflexivity|].
  repeat split; vm_compute; reflexivity.
Qed.

Lemma chat_not_blank_succeeds_witness :
  my_rag_agent Sample.server = Some Sample.agent
  /\ ~ blank "q"
  /\ exists a s',
       serve (chat Sample.world_no_llm "q") Sample.server
         = (Success {| response := a; chat_status := "success" |}, s')
       /\ a = error_message.
Proof.
  assert (Hb : ~ blank "q") by (apply not_blank_by_strip; reflexivity).
  split; [reflexivity|]. split; [exact Hb|].
  destruct (chat_not_blank_succeeds Sample.world_no_llm Sample.server
              Sample.agent "q" eq_refl Hb) as (a & s' & Hserve & _ & Hfail & _).
  exists a, s'. split; [exact Hserve|].
  apply (Hfail (Exception "503 Service Unavailable")). reflexivity.
Defined.

(** Against C5 as it was stated: where the agent was never built, the
    empty message is answered 503, not 400. *)
Lemma chat_blank_without_agent :
  blank ""
  /\ my_rag_agent Sample.server_no_key = None
  /\ serve (chat Sample.world "") Sample.server_no_key
     = (Failure 503
          "RAG Agent is not initialized. Please check server configuration.",
        Sample.server_no_key).
Proof.
  split; [constructor|]. split; vm_compute; reflexivity.
Qed.

Lemma chat_blank_rejected_witness :
  blank "  "
  /\ serve (chat Sample.world "  ") Sample.server
     = (Failure 400 "Message cannot be empty", Sample.server).
Proof.
  assert (Hb : blank "  ") by (repeat constructor).
  split; [exact Hb|].
  apply (proj1 (chat_blank_rejected Sample.world Sample.server "  " Hb)).
  exists Sample.agent. reflexivity.
Defined.

(** Against C4 as it was stated: an upload that is both too large and not
    a PDF is answered 400, not 413. *)
Lemma upload_oversized_not_pdf_is_400 :
  50 * 1024 * 1024 < len (file_bytes (Sample.upload "notes.txt" Sample.oversized))
  /\ serve (upload_pdf Sample.world (Sample.upload "notes.txt" Sample.oversized))
       Sample.server
     = (Failure 400 "Only PDF files are allowed", Sample.server).
Proof.
  split.
  - cbn [file_bytes Sample.upload]. rewrite oversized_len. lia.
  - apply (upload_pdf_other_type Sample.world Sample.server Sample.agent
             (Sample.upload "notes.txt" Sample.oversized) "notes.txt");
      reflexivity.
Qed.

Lemma upload_pdf_rejections_witness :
  my_rag_agent Sample.server = Some Sample.agent
  /\ is_pdf (upload_name (Sample.upload "notes.txt" Sample.hello)) = false
  /\ (exists detail,
        serve (upload_pdf Sample.world (Sample.upload "notes.txt" Sample.hello))
          Sample.server
        = (Failure 400 detail, Sample.server))
  /\ is_pdf (upload_name (Sample.upload "big.PDF" Sample.oversized)) = true
  /\ 50 * 1024 * 1024 < len (file_bytes (Sample.upload "big.PDF" Sample.oversized))
  /\ serve (upload_pdf Sample.world (Sample.upload "big.PDF" Sample.oversized))
       Sample.server
     = (Failure 413 "File too large. Maximum size is 50MB.", Sample.server).
Proof.
  assert (Hlen : 50 * 1024 * 1024
                 < len (file_bytes (Sample.upload "big.PDF" Sample.oversized))).
  { cbn [file_bytes Sample.upload]. rewrite oversized_len. lia. }
  split; [reflexivity|]. split; [reflexivity|].
  split.
  { exact (proj1 (upload_pdf_rejections Sample.world Sample.server Sample.agent
                    (Sample.upload "notes.txt" Sample.hello) eq_refl) eq_refl). }
  split; [reflexivity|]. split; [exact Hlen|].
  exact (proj2 (upload_pdf_rejections Sample.world Sample.server Sample.agent
                  (Sample.upload "big.PDF" Sample.oversized) eq_refl)
           eq_refl Hlen).
Defined.

(** Against C7 as it was stated: a question of one space is not empty,
    and ask raises on it before any step runs. *)
Lemma ask_whitespace_runs_no_step :
  " " <> ""
  /\ ask Sample.world Sample.agent " "
     = (inl (ValueError "Question cannot be empty"), []).
Proof. split; [discriminate | reflexivity]. Qed.

Lemma ask_runs_retrieve_then_generate_witness :
  ~ blank " what does it say? "
  /\ trace (ask Sample.world Sample.agent " what does it say? ") =
     [Enter "retrieve";
      SimilaritySearch "what does it say?" 4;
      Enter "generate";
      GenerateContent
        (prompt_text [Sample.chunk] (chat_history Sample.agent)
                     "what does it say?")].
Proof.
  assert (Hb : ~ blank " what does it say? ")
    by (apply not_blank_by_strip; reflexivity).
  split; [exact Hb|].
  exact (proj1 (ask_runs_retrieve_then_generate Sample.world Sample.agent
                  " what does it say? " Hb)).
Defined.

(** The same upload made twice on the sample server. *)
Lemma upload_appends_chunks_witness :
  let file := Sample.upload "c.pdf" Sample.hello in
  let once := snd (serve (upload_pdf Sample.world file) Sample.server) in
  let twice := snd (serve (upload_pdf Sample.world file) once) in
  let c := {| page_content := "hello";
              metadata := [("source", "/app/pdfs/c.pdf")] |} in
  (exists body, serve (upload_pdf Sample.world file) Sample.server
                = (Success body, once))
  /\ (vector_store <$> my_rag_agent once) = Some [Sample.chunk; c]
  /\ (vector_store <$> my_rag_agent twice) = Some [Sample.chunk; c; c]
  /\ exists agent agent' chunks,
       my_rag_agent Sample.server = Some agent
       /\ my_rag_agent once = Some agent'
       /\ vector_store agent' = vector_store agent ++ chunks
       /\ chat_history agent' = chat_history agent.
Proof.
  intros file once twice c.
  assert (H : serve (upload_pdf Sample.world file) Sample.server
              = (Success {| upload_message := "Successfully uploaded and processed c.pdf";
                            upload_filename := "c.pdf";
                            upload_status := "success" |}, once))
    by (vm_compute; reflexivity).
  split; [eexists; exact H|].
  split; [vm_compute; reflexivity|]. split; [vm_compute; reflexivity|].
  destruct (upload_appends_chunks _ _ _ _ _ H)
    as (agent & agent' & name & pages & chunks
        & Ha & Ha' & _ & _ & _ & _ & Hstore & _ & Hhist & _).
  exists agent, agent', chunks. tauto.
Defined.

(** An empty file named c.pdf: it is written, nothing can be read in it, the
    upload is answered 500, and the status counts three PDF files where
    there were two. *)
Lemma upload_not_atomic_witness :
  let file := Sample.upload "c.pdf" [] in
  let fs := <["/app/pdfs/c.pdf" := File []]> (files Sample.server) in
  os.write_bytes (os.path_join (pdfs_dir Sample.server) "c.pdf") []
    (files Sample.server) = inr fs
  /\ load_documents Sample.world fs Sample.agent ["/app/pdfs/c.pdf"]
     = inl (Exception "Failed to load any documents")
  /\ fst (serve (upload_pdf Sample.world file) Sample.server)
     = Failure 500 "Internal server error: Failed to load any documents"
  /\ len_names (filter_pdf (os.listdir (pdfs_dir Sample.server)
                                         (files Sample.server))) = 2
  /\ exists s' st,
       serve (upload_pdf Sample.world file) Sample.server
         = (Failure 500 "Internal server error: Failed to load any documents", s')
       /\ my_rag_agent s' = Some Sample.agent
       /\ serve get_status s' = (Success st, s')
       /\ documents_loaded st = 3.
Proof.
  intros file fs.
  assert (Hw : os.write_bytes (os.path_join (pdfs_dir Sample.server) "c.pdf") []
                 (files Sample.server) = inr fs)
    by (vm_compute; reflexivity).
  assert (H : load_documents Sample.world fs Sample.agent
                [os.path_join (pdfs_dir Sample.server) "c.pdf"]
              = inl (Exception "Failed to load any documents"))
    by (vm_compute; reflexivity).
  split; [exact Hw|]. split; [exact H|]. split; [vm_compute; reflexivity|].
  split; [vm_compute; reflexivity|].
  assert (Hlen : len [] <= max_upload) by (vm_compute; discriminate).
  assert (Hnew : files Sample.server !! os.path_join (pdfs_dir Sample.server) "c.pdf"
                 = None) by (vm_compute; reflexivity).
  destruct (upload_not_atomic Sample.world Sample.server Sample.agent "c.pdf" []
              fs (Exception "Failed to load any documents")
              eq_refl eq_refl eq_refl Hlen Hw H)
    as (s' & st & Hserve & _ & Hagent & Hstatus & _ & _ & _ & Hcount).
  exists s', st. split; [exact Hserve|]. split; [exact Hagent|].
  split; [exact Hstatus|]. rewrite (Hcount Hnew). vm_compute. reflexivity.
Defined.

(** The search raises, the answer comes all the same. *)
Lemma retrieval_failure_is_absorbed_witness :
  SimilaritySearch "q" 4 ∈ trace (ask Sample.world_no_search Sample.agent " q")
  /\ similarity_search Sample.world_no_search (vector_store Sample.agent) "q" 4
     = inl (Exception "embedding quota exceeded")
  /\ result (retrieve Sample.world_no_search Sample.agent
               {| messages := []; question := "q"; context := []; answer := "" |})
     = inr [SetContext []]
  /\ exists self',
       result (ask Sample.world_no_search Sample.agent " q")
       = inr ("It says hello.", self').
Proof.
  assert (Hin : SimilaritySearch "q" 4
                ∈ trace (ask Sample.world_no_search Sample.agent " q")).
  { apply elem_of_cons. right. apply elem_of_cons. left. reflexivity. }
  split; [exact Hin|]. split; [reflexivity|].
  destruct (retrieval_failure_is_absorbed Sample.world_no_search Sample.agent
              " q" "q" 4 (Exception "embedding quota exceeded") Hin eq_refl)
    as (Hretrieve & self' & Hask).
  split; [apply Hretrieve; reflexivity|].
  exists self'. rewrite Hask. reflexivity.
Defined.

(** Against C6 as it was stated: on a server started where the PDFs
    directory holds the files a.pdf and B.PDF and a directory scans.pdf,
    GET /status reports three documents; the files of the directory whose
    names end in '.pdf' are two. *)
Lemma status_counts_a_directory :
  let s := startup Sample.world (Some "key") Sample.app Scenario.disk_with_dir in
  serve get_status s
  = (Success {| status := "running";
                rag_agent_ready := true;
                pdfs_directory := "/app/pdfs";
                documents_loaded := 3 |}, s)
  /\ files s !! "/app/pdfs/scans.pdf" = Some Dir
  /\ pdf_files s = ["a.pdf"; "B.PDF"]
  /\ Z.of_nat (length (pdf_files s)) = 2.
Proof. intros s. repeat split; vm_compute; reflexivity. Qed.

(** The status of the sample server as it starts: two documents, B.PDF
    being one of them for all its capitals, notes.txt none. *)
Lemma status_counts_pdfs_witness :
  let s := run [] (startup Sample.world (Some "key") Sample.app Sample.disk) in
  exists st names,
    serve get_status s = (Success st, s)
    /\ documents_loaded st = 2
    /\ length names = 2%nat
    /\ "a.pdf" ∈ names /\ "B.PDF" ∈ names /\ ("notes.txt" ∉ names)
    /\ rag_agent_ready st = true.
Proof.
  intros s.
  destruct (status_counts_pdfs Sample.world (Some "key") Sample.app Sample.disk [])
    as (st & names & Hserve & _ & Hnames & Hcount & _ & Hready).
  fold s in Hserve, Hnames.
  assert (Hst : documents_loaded st = 2).
  { assert (Hfst : fst (serve get_status s) = Success st)
      by (rewrite Hserve; reflexivity).
    vm_compute in Hfst. injection Hfst as <-. reflexivity. }
  exists st, names. split; [exact Hserve|]. split; [exact Hst|].
  split; [lia|]. split; [|split; [|split]].
  - apply Hnames. split; [|split; [reflexivity | vm_compute; eauto]].
    exists "a", "p"%char, "d"%char, "f"%char. tauto.
  - apply Hnames. split; [|split; [reflexivity | vm_compute; eauto]].
    exists "B", "P"%char, "D"%char, "F"%char. tauto.
  - intros (Hend & _)%Hnames. apply is_pdf_ends_in_pdf in Hend.
    discriminate Hend.
  - apply Hready. exists "key". eexists. split; reflexivity.
Defined.

(** Against C9 as it was stated: an empty file uploaded under the filename
    /tmp/evil.pdf is written, to /tmp; nothing can be read in it and the
    upload is answered 500; the PDFs directory has no new entry, and GET
    /status reports two documents as before. *)
Lemma upload_outside_directory_is_not_counted :
  let s := Scenario.server_with_tmp in
  let file := Sample.upload "/tmp/evil.pdf" [] in
  let fs := <["/tmp/evil.pdf" := File []]> (files s) in
  is_pdf "/tmp/evil.pdf" = true
  /\ os.path_join (pdfs_dir s) "/tmp/evil.pdf" = "/tmp/evil.pdf"
  /\ os.write_bytes "/tmp/evil.pdf" [] (files s) = inr fs
  /\ load_documents Sample.world fs Sample.agent ["/tmp/evil.pdf"]
     = inl (Exception "Failed to load any documents")
  /\ serve (upload_pdf Sample.world file) s
     = (Failure 500 "Internal server error: Failed to load any documents",
        set_files s fs)
  /\ os.listdir (pdfs_dir s) fs = os.listdir (pdfs_dir s) (files s)
  /\ pdf_count s = 2
  /\ serve get_status (set_files s fs)
     = (Success {| status := "running";
                   rag_agent_ready := true;
                   pdfs_directory := "/app/pdfs";
                   documents_loaded := 2 |}, set_files s fs).
Proof. intros s file fs. repeat split; vm_compute; reflexivity. Qed.

(** * Further properties of the handlers and the agent *)

(** ** What a request can do to the server *)

Section Effects.

Implicit Types (s : Server) (w : World).

Lemma set_files_id s : set_files s (files s) = s.
Proof. destruct s; reflexivity. Qed.

(** The three ways an upload can end; [k] is the key of the node that the
    path of the upload names. *)
Lemma upload_pdf_cases w file s :
  (exists c d, serve (upload_pdf w file) s = (Failure c d, s))
  \/ (exists agent name k d,
        my_rag_agent s = Some agent /\ filename file = Some name
        /\ is_pdf name = true
        /\ os.resolve (files s) (os.path_join (pdfs_dir s) name) = inr k
        /\ files s !! k <> Some Dir
        /\ serve (upload_pdf w file) s
           = (Failure 500 d,
              set_files s (<[k := File (file_bytes file)]> (files s))))
  \/ (exists agent name k chunks body,
        my_rag_agent s = Some agent /\ filename file = Some name
        /\ is_pdf name = true
        /\ os.resolve (files s) (os.path_join (pdfs_dir s) name) = inr k
        /\ files s !! k <> Some Dir
        /\ chunks <> []
        /\ serve (upload_pdf w file) s
           = (Success body,
              set_agent
                (set_files s (<[k := File (file_bytes file)]> (files s)))
                (set_vector_store agent (vector_store agent ++ chunks)))).
Proof.
  destruct (my_rag_agent s) as [agent|] eqn:Ha.
  2:{ left. unfold upload_pdf. unfold_h. rewrite Ha. eauto. }
  destruct (is_pdf (upload_name file)) eqn:Hn.
  2:{ left. destruct (upload_pdf_not_pdf w s agent file Ha Hn) as (d & -> & _).
      eauto. }
  destruct (Z.ltb_spec max_upload (len (file_bytes file))) as [Hlen|Hlen].
  { left. rewrite (upload_pdf_too_large w s agent file Ha Hn Hlen). eauto. }
  unfold upload_name in Hn.
  destruct (filename file) as [name|] eqn:Hf; [|discriminate].
  change (is_pdf name = true) in Hn.
  unfold serve. rewrite (upload_pdf_accepted w s agent file name Ha Hf Hn Hlen).
  set (path := os.path_join (pdfs_dir s) name).
  destruct (os.write_bytes path (file_bytes file) (files s)) as [e|fs] eqn:Hw.
  { left. cbn [respond]. eauto. }
  apply write_bytes_inr in Hw as (k & Hres & Hnd & ->).
  set (fs := <[k := File (file_bytes file)]> (files s)).
  destruct (load_documents w fs agent [path]) as [e|agent'] eqn:Hl.
  - right. left. exists agent, name, k. eexists. cbn [respond].
    repeat split; try assumption; reflexivity.
  - right. right.
    apply load_documents_inr in Hl as (chunks & _ & _ & Hne & _ & ->);
      [|discriminate].
    exists agent, name, k, chunks. eexists. cbn [respond].
    repeat split; try assumption; reflexivity.
Qed.

(** The two ways a chat can end. *)
Lemma chat_cases w msg s :
  (exists c d, serve (chat w msg) s = (Failure c d, s))
  \/ (exists agent a,
        my_rag_agent s = Some agent
        /\ serve (chat w msg) s
           = (Success {| response := a; chat_status := "success" |},
              set_agent s (set_chat_history agent
                (Py.last_n 20 (chat_history agent
                               ++ [HumanMessage (Py.strip msg); AIMessage a]))))).
Proof.
  destruct (Py.truthy (Py.strip msg)) eqn:Hm.
  - destruct (my_rag_agent s) as [agent|] eqn:Ha.
    + right. exists agent. eexists. split; [reflexivity|].
      apply (chat_answered w s agent msg Ha Hm).
    + left. unfold chat. unfold_h. rewrite Ha. cbn [respond]. eauto.
  - left. rewrite (chat_blank w s msg Hm). destruct (my_rag_agent s); eauto.
Qed.

Lemma server_eq s s' :
  GEMINI_API_KEY s' = GEMINI_API_KEY s ->
  my_rag_agent s' = my_rag_agent s ->
  module_dir s' = module_dir s ->
  s' = set_files s (files s').
Proof. destruct s, s'; cbn; intros -> -> ->; reflexivity. Qed.

(** Joining a directory with a plain name loses nothing of the name. *)
Lemma path_join_inj d n1 n2 :
  os.plain n1 = true -> os.plain n2 = true ->
  os.path_join d n1 = os.path_join d n2 -> n1 = n2.
Proof.
  intros H1 H2 Heq. pose proof (entry_name_join d n1 H1) as E1.
  rewrite Heq, (entry_name_join d n2 H2) in E1. congruence.
Qed.

(** The names of a listing still stand for nodes when another one of them
    has been removed. *)
Lemma entries_after_delete d name (rest : list string) (fs : gmap string node) :
  name ∉ rest -> os.plain name = true ->
  (forall n, n ∈ rest -> os.plain n = true /\ is_Some (fs !! os.path_join d n)) ->
  forall n, n ∈ rest ->
    os.plain n = true
    /\ is_Some (delete (os.path_join d name) fs !! os.path_join d n).
Proof.
  intros Hnotin Hplain Hex n Hn. destruct (Hex n Hn) as [Hpn Hsome].
  split; [exact Hpn|]. rewrite lookup_delete_ne; [exact Hsome|].
  intros Heq. apply path_join_inj in Heq; [|assumption..].
  subst n. contradiction.
Qed.

(** The loop of [reset_documents] over entries of the directory leaves alone
    every path that is not one it was told to remove. *)
Lemma remove_pdfs_frame d names s r s' :
  NoDup names ->
  (forall n, n ∈ names ->
     os.plain n = true /\ is_Some (files s !! os.path_join d n)) ->
  remove_pdfs d names s = (r, s') ->
  forall p,
    (forall n, n ∈ names -> is_pdf n = true -> p <> os.path_join d n) ->
    files s' !! p = files s !! p.
Proof.
  intros Hnd. revert s. induction Hnd as [|name rest Hnotin Hnd IH]; intros s Hex.
  - cbn. intros [= <- <-]. reflexivity.
  - assert (Hex' : forall n, n ∈ rest ->
              os.plain n = true /\ is_Some (files s !! os.path_join d n))
      by (intros n Hn; apply Hex; right; exact Hn).
    destruct (Hex name) as [Hplain [x Hx]]; [left|].
    cbn [remove_pdfs]. unfold hbind at 1.
    destruct (is_pdf name) eqn:Hpdf.
    + unfold hbind, hget, hlift, hput. rewrite (remove_key _ _ x Hx).
      destruct x as [bytes|].
      * intros Hrest p Hnot.
        rewrite (IH (set_files s (delete (os.path_join d name) (files s)))
                   (entries_after_delete d name rest (files s) Hnotin Hplain Hex')
                   Hrest p).
        -- cbn [files set_files]. apply lookup_delete_ne.
           intros <-. apply (Hnot name); [left | exact Hpdf | reflexivity].
        -- intros n Hn. apply Hnot. right. exact Hn.
      * intros [= <- <-]. reflexivity.
    + unfold hret. intros Hrest p Hnot. apply (IH _ Hex' Hrest p).
      intros n Hn. apply Hnot. right. exact Hn.
Qed.

(** The loop over entries of the directory ends without raising exactly
    when every PDF name it is given stands for a file. *)
Lemma remove_pdfs_ok_iff d names s :
  NoDup names ->
  (forall n, n ∈ names ->
     os.plain n = true /\ is_Some (files s !! os.path_join d n)) ->
  (exists s', remove_pdfs d names s = (inr tt, s')) <->
  (forall n, n ∈ names -> is_pdf n = true ->
     exists bytes, files s !! os.path_join d n = Some (File bytes)).
Proof.
  intros Hnd. revert s. induction Hnd as [|name rest Hnotin Hnd IH]; intros s Hex.
  - cbn. split; [intros _ n Hn; apply elem_of_nil in Hn; contradiction | eauto].
  - assert (Hex' : forall n, n ∈ rest ->
              os.plain n = true /\ is_Some (files s !! os.path_join d n))
      by (intros n Hn; apply Hex; right; exact Hn).
    destruct (Hex name) as [Hplain [x Hx]]; [left|].
    cbn [remove_pdfs]. unfold hbind at 1.
    destruct (is_pdf name) eqn:Hpdf.
    + unfold hbind, hget, hlift, hput. rewrite (remove_key _ _ x Hx).
      destruct x as [bytes|].
      * pose proof (entries_after_delete d name rest (files s) Hnotin Hplain Hex')
          as Hafter.
        rewrite (IH (set_files s (delete (os.path_join d name) (files s))) Hafter).
        cbn [files set_files].
        assert (Hother : forall n, n ∈ rest ->
                  delete (os.path_join d name) (files s) !! os.path_join d n
                  = files s !! os.path_join d n).
        { intros n Hn. apply lookup_delete_ne. intros Heq.
          apply path_join_inj in Heq; [subst n; contradiction | |].
          - exact Hplain.
          - apply Hex'. exact Hn. }
        split.
        -- intros H n [->|Hn]%elem_of_cons Hn'; [eauto|].
           rewrite <- (Hother n Hn). apply H; assumption.
        -- intros H n Hn Hn'. rewrite (Hother n Hn). apply H; [right|]; assumption.
      * split; [intros [s' [=]]|].
        intros H. destruct (H name) as [bytes Hb]; [left | exact Hpdf | congruence].
    + unfold hret. rewrite (IH s Hex'). split.
      * intros H n [->|Hn]%elem_of_cons Hn'; [congruence | apply H; assumption].
      * intros H n Hn Hn'. apply H; [right|]; assumption.
Qed.

(** The ways a reset can end: always with 200 or 500, and with the agent
    replaced only on 200. *)
Lemma reset_documents_cases w s :
  (my_rag_agent s = None
   /\ exists d, serve (reset_documents w) s = (Failure 500 d, s))
  \/ (exists agent r s1,
        my_rag_agent s = Some agent
        /\ remove_pdfs (pdfs_dir s) (os.listdir (pdfs_dir s) (files s)) s = (r, s1)
        /\ ((exists d, serve (reset_documents w) s = (Failure 500 d, s1))
            \/ (exists key agent',
                  r = inr tt
                  /\ key_value (GEMINI_API_KEY s) = Some key
                  /\ _init_ w key = inr agent'
                  /\ serve (reset_documents w) s
                     = (Success Sample.reset_body, set_agent s1 agent')))).
Proof.
  unfold reset_documents. unfold_h.
  destruct (my_rag_agent s) as [agent|] eqn:Ha.
  2:{ left. split; [reflexivity|]. cbn [respond]. eauto. }
  right. destruct (remove_pdfs _ _ s) as [r s1] eqn:Hrm.
  exists agent, r, s1. split; [reflexivity|]. split; [reflexivity|].
  destruct r as [e|[]]; [left; cbn [respond]; eauto|].
  destruct (key_value (GEMINI_API_KEY s)) as [key|] eqn:Hk;
    [|left; cbn [respond]; eauto].
  destruct (_init_ w key) as [e|agent'] eqn:Hi; [left; cbn [respond]; eauto|].
  right. exists key, agent'. cbn [respond]. tauto.
Qed.

End Effects.

(** ** Reset *)

(** X1: DELETE /reset answers 200 or 500 and nothing else: the 503 it raises
    when there is no agent is taken by its own except clause and leaves as a
    500, the server being left as it was. *)
Theorem reset_documents_answers_200_or_500 w s :
  match my_rag_agent s with
  | None => exists d, serve (reset_documents w) s = (Failure 500 d, s)
  | Some _ =>
      status_code (fst (serve (reset_documents w) s)) = 200
      \/ status_code (fst (serve (reset_documents w) s)) = 500
  end.
Proof.
  destruct (reset_documents_cases w s)
    as [[Ha Hd] | (agent & r & s1 & Ha & _ & [[d Hd] | (k & a' & _ & _ & _ & Hd)])];
    rewrite Ha; [exact Hd | rewrite Hd; right; reflexivity
                          | rewrite Hd; left; reflexivity].
Qed.

(** X2: a reset is not atomic.  When the files are removed and the
    constructor then raises, the request is answered 500 with the
    constructor's message, the PDF files are gone all the same, and the old
    agent - its vector store and its chat history - stays in place. *)
Theorem reset_not_atomic w s agent key e :
  my_rag_agent s = Some agent ->
  (forall n, n ∈ os.listdir (pdfs_dir s) (files s) -> is_pdf n = true ->
     files s !! os.path_join (pdfs_dir s) n <> Some Dir) ->
  key_value (GEMINI_API_KEY s) = Some key ->
  _init_ w key = inl e ->
  exists s',
    serve (reset_documents w) s
      = (Failure 500 ("Failed to reset documents: " +:+ str e), s')
    /\ my_rag_agent s' = Some agent
    /\ pdf_count s' = 0
    /\ (forall n, n ∈ os.listdir (pdfs_dir s) (files s) -> is_pdf n = true ->
          files s' !! os.path_join (pdfs_dir s) n = None).
Proof.
  intros Ha Hfiles Hk Hi.
  assert (Hrm : exists s1, remove_pdfs (pdfs_dir s)
                            (os.listdir (pdfs_dir s) (files s)) s = (inr tt, s1)).
  { apply remove_pdfs_ok_iff; [apply NoDup_listdir | |].
    - intros n Hn%elem_of_listdir. exact Hn.
    - intros n Hn Hpdf. pose proof (Hfiles n Hn Hpdf) as Hnd.
      apply elem_of_listdir in Hn as [_ [[bytes|] Hx]]; [eauto | congruence]. }
  destruct Hrm as [s1 Hrm]. exists s1.
  pose proof (remove_pdfs_spec _ _ _ _ _ Hrm) as (Hagent & _ & Hdir & Hsub & Hgone).
  split.
  - unfold reset_documents. unfold_h. rewrite Ha, Hrm, Hk, Hi. reflexivity.
  - split; [congruence|]. split; [|apply Hgone; reflexivity].
    unfold pdf_count, len_names.
    destruct (filter_pdf (os.listdir (pdfs_dir s1) (files s1))) as [|n l] eqn:Hl;
      [reflexivity|].
    exfalso. assert (Hn : n ∈ filter_pdf (os.listdir (pdfs_dir s1) (files s1)))
      by (rewrite Hl; left).
    apply counted_names in Hn as (Hpdf & Hplain & Hsome).
    unfold pdfs_dir in Hsome. rewrite Hdir in Hsome. fold (pdfs_dir s) in Hsome.
    rewrite (Hgone eq_refl n) in Hsome; [destruct Hsome as [? [=]] | | exact Hpdf].
    apply elem_of_listdir. split; [exact Hplain | apply Hsub, Hsome].
Qed.

(** X3: whether it succeeds or not, a reset touches no path but those of the
    entries of the PDFs directory that bear a PDF name: every other file,
    inside the directory or outside it, is after the request what it was
    before. *)
Theorem reset_documents_frame w s p :
  ~ pdf_entry_path (pdfs_dir s) p ->
  files (snd (serve (reset_documents w) s)) !! p = files s !! p.
Proof.
  intros Hp.
  assert (Hframe : forall r s1,
            remove_pdfs (pdfs_dir s) (os.listdir (pdfs_dir s) (files s)) s = (r, s1) ->
            files s1 !! p = files s !! p).
  { intros r s1 Hrm.
    apply (remove_pdfs_frame _ _ _ _ _ (NoDup_listdir _ _)
             (fun n Hn => proj1 (elem_of_listdir _ _ n) Hn) Hrm).
    intros n [Hplain _]%elem_of_listdir Hpdf ->. apply Hp. exists n. tauto. }
  destruct (reset_documents_cases w s)
    as [[_ [d ->]] | (agent & r & s1 & _ & Hrm
                      & [[d ->] | (k & a' & _ & _ & _ & ->)])];
    cbn [snd files set_agent];
    [reflexivity | apply (Hframe r), Hrm | apply (Hframe r), Hrm].
Qed.

(** X4: with an agent in place and a constructor that does not raise, a
    reset is answered 200 exactly when no entry of the PDFs directory with a
    PDF name is a directory: os.remove raises on one, and the request ends
    there with a 500. *)
Theorem reset_documents_succeeds_iff w s agent key agent' :
  my_rag_agent s = Some agent ->
  key_value (GEMINI_API_KEY s) = Some key ->
  _init_ w key = inr agent' ->
  (exists body s', serve (reset_documents w) s = (Success body, s')) <->
  (forall n, n ∈ os.listdir (pdfs_dir s) (files s) -> is_pdf n = true ->
     files s !! os.path_join (pdfs_dir s) n <> Some Dir).
Proof.
  intros Ha Hk Hi.
  assert (Hiff : (exists s1, remove_pdfs (pdfs_dir s)
                   (os.listdir (pdfs_dir s) (files s)) s = (inr tt, s1)) <->
                 (forall n, n ∈ os.listdir (pdfs_dir s) (files s) ->
                    is_pdf n = true ->
                    files s !! os.path_join (pdfs_dir s) n <> Some Dir)).
  { rewrite remove_pdfs_ok_iff;
      [|apply NoDup_listdir | intros n Hn%elem_of_listdir; exact Hn].
    split; intros H n Hn Hpdf.
    - destruct (H n Hn Hpdf) as [bytes ->]. discriminate.
    - pose proof (H n Hn Hpdf) as Hnd.
      apply elem_of_listdir in Hn as [_ [[bytes|] Hx]]; [eauto | congruence]. }
  rewrite <- Hiff. unfold reset_documents. unfold_h. rewrite Ha.
  destruct (remove_pdfs _ _ s) as [[e|[]] s1] eqn:Hrm.
  - split; [intros (b & s' & [=]) | intros [s1' [=]]].
  - rewrite Hk, Hi. cbn [respond]. split; eauto.
Qed.

(** ** What stays true while the server runs *)

Section Reachable.

Implicit Types (s : Server) (w : World).

Lemma handle_snd w req s :
  snd (handle w req s) =
  match req with
  | POST_upload_pdf file => snd (serve (upload_pdf w file) s)
  | POST_chat msg => snd (serve (chat w msg) s)
  | GET_status => s
  | GET_health => s
  | DELETE_reset => snd (serve (reset_documents w) s)
  end.
Proof.
  destruct req as [file|msg| | |]; cbn [handle]; try reflexivity.
  - destruct (serve (upload_pdf w file) s); reflexivity.
  - destruct (serve (chat w msg) s); reflexivity.
  - destruct (serve (reset_documents w) s); reflexivity.
Qed.

(** What a request can do to the key, the module path and the agent. *)
Lemma handle_agent_cases w req s :
  GEMINI_API_KEY (snd (handle w req s)) = GEMINI_API_KEY s
  /\ module_dir (snd (handle w req s)) = module_dir s
  /\ (my_rag_agent (snd (handle w req s)) = my_rag_agent s
      \/ (exists agent chunks,
            my_rag_agent s = Some agent
            /\ my_rag_agent (snd (handle w req s))
               = Some (set_vector_store agent (vector_store agent ++ chunks)))
      \/ (exists agent q a,
            my_rag_agent s = Some agent
            /\ my_rag_agent (snd (handle w req s))
               = Some (set_chat_history agent
                         (Py.last_n 20 (chat_history agent
                                        ++ [HumanMessage q; AIMessage a]))))
      \/ (exists agent key,
            my_rag_agent s = Some agent
            /\ key_value (GEMINI_API_KEY s) = Some key
            /\ my_rag_agent (snd (handle w req s))
               = Some {| gemini_api_key := key;
                         vector_store := []; chat_history := [] |})).
Proof.
  rewrite handle_snd. destruct req as [file|msg| | |].
  - destruct (upload_pdf_cases w file s)
      as [(c & d & ->) | [(agent & name & k & d & Ha & _ & _ & _ & _ & ->)
                          | (agent & name & k & chunks & body
                             & Ha & _ & _ & _ & _ & _ & ->)]];
      cbn [snd]; (split; [reflexivity|]); (split; [reflexivity|]);
      [left; reflexivity | left; reflexivity |].
    right. left. exists agent, chunks. split; [exact Ha | reflexivity].
  - destruct (chat_cases w msg s) as [(c & d & ->) | (agent & a & Ha & ->)];
      cbn [snd]; (split; [reflexivity|]); (split; [reflexivity|]);
      [left; reflexivity|].
    right. right. left. exists agent, (Py.strip msg), a.
    split; [exact Ha | reflexivity].
  - tauto.
  - tauto.
  - destruct (reset_documents_cases w s)
      as [[_ [d ->]] | (agent & r & s1 & Ha & Hrm
                        & [[d ->] | (k & a' & _ & Hk & Hi & ->)])];
      cbn [snd]; [tauto | |];
      apply remove_pdfs_spec in Hrm as (Hagent & Hkey & Hdir & _).
    + split; [exact Hkey|]. split; [exact Hdir|]. left. exact Hagent.
    + split; [exact Hkey|]. split; [exact Hdir|]. right. right. right.
      exists agent, k. split; [exact Ha|]. split; [exact Hk|].
      cbn [my_rag_agent set_agent]. rewrite (init_fresh w k a' Hi). reflexivity.
Qed.

(** X5: a request leaves the key and the module path alone, and does to the
    agent one of four things: nothing; append chunks to its vector store (an
    upload); append one turn to its chat history and keep the last twenty
    entries (a chat); or replace it by a new agent with the server's key, an
    empty store and an empty history (a reset, which needs an agent to be
    there already). *)
Theorem handle_agent_effect w req s :
  GEMINI_API_KEY (snd (handle w req s)) = GEMINI_API_KEY s
  /\ module_dir (snd (handle w req s)) = module_dir s
  /\ (my_rag_agent (snd (handle w req s)) = my_rag_agent s
      \/ (exists agent chunks,
            my_rag_agent s = Some agent
            /\ my_rag_agent (snd (handle w req s))
               = Some (set_vector_store agent (vector_store agent ++ chunks)))
      \/ (exists agent q a,
            my_rag_agent s = Some agent
            /\ my_rag_agent (snd (handle w req s))
               = Some (set_chat_history agent
                         (Py.last_n 20 (chat_history agent
                                        ++ [HumanMessage q; AIMessage a]))))
      \/ (exists agent key,
            my_rag_agent s = Some agent
            /\ key_value (GEMINI_API_KEY s) = Some key
            /\ my_rag_agent (snd (handle w req s))
               = Some {| gemini_api_key := key;
                         vector_store := []; chat_history := [] |})).
Proof. apply handle_agent_cases. Qed.

Lemma run_invariant (I : Server -> Prop) :
  (forall w req s, I s -> I (snd (handle w req s))) ->
  forall reqs s, I s -> I (run reqs s).
Proof.
  intros Hstep reqs. induction reqs as [|[w req] rest IH]; intros s Hs; cbn [run];
    [exact Hs|].
  apply IH, Hstep, Hs.
Qed.

Lemma turns_app h q a : turns h -> turns (h ++ [HumanMessage q; AIMessage a]).
Proof.
  induction 1 as [|q' a' h Hh IH]; cbn; repeat constructor. exact IH.
Qed.

Lemma turns_even h : turns h -> exists k, length h = (2 * k)%nat.
Proof.
  induction 1 as [|q a h Hh [k IH]]; [exists 0%nat; reflexivity|].
  exists (S k). cbn [length]. lia.
Qed.

Lemma turns_drop_even h k : turns h -> turns (drop (2 * k) h).
Proof.
  intros Hh. revert k. induction Hh as [|q a h Hh IH]; intros k.
  - rewrite drop_nil. constructor.
  - destruct k as [|k]; [cbn; constructor; exact Hh|].
    replace (2 * S k)%nat with (S (S (2 * k))) by lia. cbn [drop]. apply IH.
Qed.

(** Cutting a history of turns down to its last twenty entries cuts between
    turns. *)
Lemma turns_last_20 h : turns h -> turns (Py.last_n 20 h).
Proof.
  intros Hh. unfold Py.last_n. destruct (turns_even h Hh) as [k Hk].
  replace (length h - 20)%nat with (2 * (k - 10))%nat by lia.
  apply turns_drop_even, Hh.
Qed.

(** X6: at any moment of the server's life the chat history of the agent is
    a sequence of whole turns - a human message, then the answer to it - and
    holds twenty entries at most, that is the last ten turns. *)
Theorem history_is_turns w0 env_key dir fs0 reqs agent :
  my_rag_agent (run reqs (startup w0 env_key dir fs0)) = Some agent ->
  turns (chat_history agent) /\ (length (chat_history agent) <= 20)%nat.
Proof.
  revert agent.
  apply (run_invariant
           (fun s => forall agent, my_rag_agent s = Some agent ->
                       turns (chat_history agent)
                       /\ (length (chat_history agent) <= 20)%nat)).
  - intros w req s Hs agent'.
    destruct (handle_agent_cases w req s)
      as (_ & _ & [-> | [(a & chunks & Ha & ->) | [(a & q & ans & Ha & ->)
                                                   | (a & k & _ & _ & ->)]]]).
    + apply Hs.
    + intros [= <-]. apply (Hs a Ha).
    + intros [= <-]. cbn [chat_history set_chat_history].
      split; [|apply last_n_length].
      apply turns_last_20, turns_app, (Hs a Ha).
    + intros [= <-]. cbn. split; [constructor | lia].
  - unfold startup. cbn [my_rag_agent]. intros agent.
    destruct (key_value env_key) as [key|]; [|discriminate].
    destruct (_init_ w0 key) as [e|a] eqn:Hi; [discriminate|].
    intros [= <-]. rewrite (init_fresh w0 key a Hi). cbn. split; [constructor | lia].
Qed.

(** X7: at any moment of the server's life an agent that is there holds the
    very key the server was started with, and that key is not empty.  So the
    test [if not GEMINI_API_KEY] of DELETE /reset, which comes after the test
    for the agent, never fires. *)
Theorem agent_key_is_server_key w0 env_key dir fs0 reqs agent :
  my_rag_agent (run reqs (startup w0 env_key dir fs0)) = Some agent ->
  GEMINI_API_KEY (run reqs (startup w0 env_key dir fs0)) = env_key
  /\ key_value env_key = Some (gemini_api_key agent).
Proof.
  revert agent.
  apply (run_invariant
           (fun s => forall agent, my_rag_agent s = Some agent ->
                       GEMINI_API_KEY s = env_key
                       /\ key_value env_key = Some (gemini_api_key agent))).
  - intros w req s Hs agent'.
    destruct (handle_agent_cases w req s)
      as (Hkey & _ & [Hsame | [(a & chunks & Ha & Hnew)
                               | [(a & q & ans & Ha & Hnew)
                                  | (a & k & Ha & Hk & Hnew)]]]);
      rewrite Hkey.
    + rewrite Hsame. apply Hs.
    + rewrite Hnew. intros [= <-]. apply (Hs a Ha).
    + rewrite Hnew. intros [= <-]. apply (Hs a Ha).
    + rewrite Hnew. intros [= <-]. cbn [gemini_api_key].
      destruct (Hs a Ha) as [Hs1 _]. split; [exact Hs1 | congruence].
  - unfold startup. cbn [my_rag_agent GEMINI_API_KEY]. intros agent.
    destruct (key_value env_key) as [key|]; [|discriminate].
    destruct (_init_ w0 key) as [e|a] eqn:Hi; [discriminate|].
    intros [= <-]. rewrite (init_fresh w0 key a Hi). split; reflexivity.
Qed.

(** X8: a server that starts without an agent - the key unset or empty, or
    the constructor raising - never gets one: whatever requests it has
    served, uploads and chats are answered 503, resets 500, and the status
    says the agent is not ready. *)
Theorem no_agent_never_recovers w0 env_key dir fs0 reqs w file msg :
  my_rag_agent (startup w0 env_key dir fs0) = None ->
  let s := run reqs (startup w0 env_key dir fs0) in
  status_code (fst (serve (upload_pdf w file) s)) = 503
  /\ status_code (fst (serve (chat w msg) s)) = 503
  /\ status_code (fst (serve (reset_documents w) s)) = 500
  /\ (exists st, fst (serve get_status s) = Success st /\ rag_agent_ready st = false).
Proof.
  intros Hstart s.
  assert (Ha : my_rag_agent s = None).
  { destruct (my_rag_agent s) eqn:Hs; [|reflexivity].
    assert (Hsome : is_Some (my_rag_agent s)) by (rewrite Hs; eauto).
    unfold s in Hsome. apply run_agent_ready in Hsome. rewrite Hstart in Hsome.
    destruct Hsome as [? [=]]. }
  split; [unfold upload_pdf; unfold_h; rewrite Ha; reflexivity|].
  split; [unfold chat; unfold_h; rewrite Ha; reflexivity|].
  split; [unfold reset_documents; unfold_h; rewrite Ha; reflexivity|].
  rewrite get_status_eq. cbn [fst]. eexists. split; [reflexivity|].
  cbn [rag_agent_ready]. rewrite Ha. reflexivity.
Qed.

(** The loop of [reset_documents] removes files only. *)
Lemma remove_pdfs_keeps_dirs d names s r s' k :
  remove_pdfs d names s = (r, s') ->
  files s !! k = Some Dir -> files s' !! k = Some Dir.
Proof.
  revert s. induction names as [|name rest IH]; intros s.
  - cbn. intros [= <- <-]. exact id.
  - cbn [remove_pdfs]. unfold hbind at 1.
    destruct (is_pdf name).
    + unfold hbind, hget, hlift, hput.
      destruct (os.remove (os.path_join d name) (files s)) as [e|fs] eqn:Hrm.
      * intros [= <- <-]. exact id.
      * apply remove_inr in Hrm as (k' & bytes & _ & Hfile & ->).
        intros Hrest Hk. apply (IH _ Hrest). cbn [files set_files].
        rewrite lookup_delete_ne; [exact Hk | congruence].
    + unfold hret. apply IH.
Qed.

Lemma handle_keeps_dirs w req s k :
  files s !! k = Some Dir -> files (snd (handle w req s)) !! k = Some Dir.
Proof.
  intros Hk. rewrite handle_snd. destruct req as [file|msg| | |]; try exact Hk.
  - destruct (upload_pdf_cases w file s)
      as [(c & d & ->) | [(agent & name & k' & d & _ & _ & _ & _ & Hnd & ->)
                          | (agent & name & k' & chunks & body
                             & _ & _ & _ & _ & Hnd & _ & ->)]];
      cbn [snd files set_agent set_files]; [exact Hk | |];
      (rewrite lookup_insert_ne; [exact Hk | congruence]).
  - destruct (chat_cases w msg s) as [(c & d & ->) | (agent & a & _ & ->)];
      exact Hk.
  - destruct (reset_documents_cases w s)
      as [[_ [d ->]] | (agent & r & s1 & _ & Hrm
                        & [[d ->] | (key & a' & _ & _ & _ & ->)])];
      cbn [snd files set_agent];
      [exact Hk | |]; apply (remove_pdfs_keeps_dirs _ _ _ _ _ _ Hrm Hk).
Qed.

(** X22: the service removes no directory and writes over none: a
    directory that is on the disk, inside the PDFs directory or outside
    it, is still there whatever requests are served. *)
Theorem directories_stay reqs s k :
  files s !! k = Some Dir -> files (run reqs s) !! k = Some Dir.
Proof.
  apply (run_invariant (fun s' => files s' !! k = Some Dir)).
  intros w req s'. apply handle_keeps_dirs.
Qed.

End Reachable.

(** ** Asking *)

Section Asking.

Variables (w : World) (self : MyRAGAgent).

(** X9: ask raises in one case only, on a question that is empty or all
    whitespace, and then with ValueError "Question cannot be empty"; no
    failure of the search or of the generation service makes it raise. *)
Theorem ask_raises_iff_blank q e :
  result (ask w self q) = inl e <->
  blank q /\ e = ValueError "Question cannot be empty".
Proof.
  destruct (Py.truthy (Py.strip q)) eqn:Hq.
  - rewrite (ask_eq w self q Hq). cbn [result fst].
    split; [discriminate|]. intros [Hb%strip_empty_iff _]. congruence.
  - rewrite (ask_blank w self q Hq). cbn [result fst].
    apply strip_empty_iff in Hq. split; [intros [= <-]; tauto | intros [_ ->]].
    reflexivity.
Qed.

(** X10: neither node of the graph ever raises, whatever the state it is
    given and whatever the services answer: retrieve returns a dictionary
    with the one key context, generate one with the keys answer and
    messages, the messages being the question and an AI message that
    carries the very text of the answer. *)
Theorem nodes_never_raise st :
  (exists docs, result (retrieve w self st) = inr [SetContext docs])
  /\ (exists a,
        result (generate w self st)
        = inr [SetAnswer a;
               SetMessages [HumanMessage (question st); AIMessage a]]).
Proof.
  split.
  - destruct (Py.truthy (question st)) eqn:Hq.
    + rewrite (retrieve_eq w self st Hq). eauto.
    + unfold retrieve. rewrite Hq. eauto.
  - rewrite generate_eq. eauto.
Qed.

(** X11: a call of ask that returns makes the chat history two entries
    longer, up to twenty entries, where it stays. *)
Theorem ask_history_length q a self' :
  result (ask w self q) = inr (a, self') ->
  length (chat_history self') = Nat.min (length (chat_history self) + 2) 20.
Proof.
  destruct (Py.truthy (Py.strip q)) eqn:Hq.
  2:{ rewrite (ask_blank w self q Hq). discriminate. }
  rewrite (ask_eq w self q Hq). cbn [result fst]. intros [= _ <-].
  cbn [chat_history set_chat_history]. unfold Py.last_n.
  rewrite length_drop, length_app. cbn [length]. lia.
Qed.

End Asking.

Lemma last_n_idem {A} (n : nat) (l : list A) :
  Py.last_n n (Py.last_n n l) = Py.last_n n l.
Proof. apply last_n_all, last_n_length. Qed.

Lemma last_n_is_empty {A} (n : nat) (l : list A) :
  (0 < n)%nat -> is_empty (Py.last_n n l) = is_empty l.
Proof.
  intros Hn. destruct l as [|x l]; [reflexivity|].
  destruct (Py.last_n n (x :: l)) as [|y k] eqn:Hk; [|reflexivity].
  apply (f_equal length) in Hk. unfold Py.last_n in Hk.
  rewrite length_drop in Hk. cbn [length] in Hk. lia.
Qed.

(** X12: of the conversation so far only the last ten messages - five turns -
    reach the prompt: the prompt composed from a history is the one composed
    from its last ten entries, so what lies before them has no part in the
    answer. *)
Theorem prompt_uses_last_ten context_docs messages question :
  prompt_text context_docs messages question
  = prompt_text context_docs (Py.last_n 10 messages) question.
Proof.
  unfold prompt_text.
  rewrite last_n_idem, last_n_is_empty by lia. reflexivity.
Qed.

(** ** Loading *)

Section LoadingMore.

Variables (w : World) (fs : gmap string node).

Lemma load_pages_step p docs :
  load_pages w fs [p] docs = docs ++ pages_of w fs p.
Proof.
  cbn [load_pages]. unfold pages_of.
  destruct (os.path_exists p fs); cbn [negb andb]; [|rewrite app_nil_r; reflexivity].
  destruct (is_pdf p); cbn [negb]; [|rewrite app_nil_r; reflexivity].
  destruct (load_pdf w fs p) as [e|[|d l]]; cbn [is_empty];
    rewrite ?app_nil_r; reflexivity.
Qed.

(** The loop gathers the pages of its paths in order. *)
Lemma load_pages_gathered paths docs :
  load_pages w fs paths docs = docs ++ mjoin (pages_of w fs <$> paths).
Proof.
  revert docs. induction paths as [|p rest IH]; intros docs.
  - cbn. rewrite app_nil_r. reflexivity.
  - change (load_pages w fs (p :: rest) docs)
      with (load_pages w fs rest (load_pages w fs [p] docs)).
    rewrite IH, load_pages_step. cbn [fmap list_fmap mjoin list_join].
    rewrite app_assoc. reflexivity.
Qed.

(** X13: the pages [load_documents] gathers are those of its paths, in the
    order of the paths; a path that does not exist, has no PDF name, cannot
    be parsed or holds no page adds nothing and stops nothing. *)
Theorem load_pages_concat paths docs :
  load_pages w fs paths docs = docs ++ mjoin (pages_of w fs <$> paths).
Proof. apply load_pages_gathered. Qed.

Lemma processing_failed_ne m :
  Exception ("Document processing failed: " +:+ m)
  <> Exception "Failed to load any documents".
Proof. intros H. vm_compute in H. discriminate H. Qed.

(** X14: [load_documents] raises "Failed to load any documents" exactly when
    it is given at least one path and no path gives a page; an empty list of
    paths is no error.  Every other exception it raises reads "Document
    processing failed: " followed by the message of what went wrong in
    splitting or embedding. *)
Theorem load_documents_errors self paths e :
  load_documents w fs self paths = inl e ->
  (e = Exception "Failed to load any documents"
   /\ paths <> [] /\ forall p, p ∈ paths -> pages_of w fs p = [])
  \/ (exists m, e = Exception ("Document processing failed: " +:+ m)
      /\ mjoin (pages_of w fs <$> paths) <> []).
Proof.
  unfold load_documents, add_documents, try_except, ebind, raise_if_some.
  destruct paths as [|p0 rest]; [discriminate|]. cbn [is_empty].
  rewrite load_pages_gathered. cbn [app].
  destruct (mjoin (pages_of w fs <$> p0 :: rest)) as [|d docs] eqn:Hd;
    cbn [is_empty].
  - intros [= <-]. left. split; [reflexivity|]. split; [discriminate|].
    intros p Hp. destruct (pages_of w fs p) as [|x l] eqn:Hx; [reflexivity|].
    exfalso. assert (Hin : x ∈ mjoin (pages_of w fs <$> p0 :: rest)).
    { apply list_elem_of_join. exists (pages_of w fs p).
      split; [rewrite Hx; left | apply list_elem_of_fmap_2, Hp]. }
    rewrite Hd in Hin. apply elem_of_nil in Hin. contradiction.
  - intros He. right.
    destruct (split_documents w (d :: docs)) as [e'|chunks].
    { injection He as <-. eexists. split; [reflexivity | discriminate]. }
    destruct (is_empty chunks).
    { injection He as <-. eexists. split; [reflexivity | discriminate]. }
    destruct (embed_documents w chunks); [|discriminate].
    injection He as <-. eexists. split; [reflexivity | discriminate].
Qed.

End LoadingMore.

(** ** The constructor and the agent's own reset *)

(** X15: the constructor raises in two cases only: EnvironmentError on an
    empty key, before anything is set up, and, on a key that is not empty, an
    Exception "RAG Agent initialization failed: ..." that wraps whatever the
    set-up raised. *)
Theorem init_errors w key e :
  _init_ w key = inl e <->
  (key = ""
   /\ e = EnvironmentError "GEMINI_API_KEY is required to initialize MyRAGAgent")
  \/ (key <> ""
      /\ exists e', sdk_setup w key = Some e'
           /\ e = Exception ("RAG Agent initialization failed: " +:+ str e')).
Proof.
  unfold _init_, try_except, ebind, raise_if_some.
  destruct key as [|c key]; cbn [Py.truthy negb].
  - split; [intros [= <-]; left; tauto|].
    intros [[_ ->] | [Hne _]]; [reflexivity | congruence].
  - destruct (sdk_setup w (String c key)) as [e'|].
    + split.
      * intros [= <-]. right. split; [discriminate | eauto].
      * intros [[[=] _] | [_ (e'' & [= <-] & ->)]]. reflexivity.
    + split; [discriminate|].
      intros [[[=] _] | [_ (e'' & [=] & _)]].
Qed.

(** X16: the agent's own reset leaves it exactly as the constructor makes an
    agent for the same key: what DELETE /reset gets by building a new agent,
    [reset] gets in place. *)
Theorem reset_is_reconstruction w self agent :
  _init_ w (gemini_api_key self) = inr agent ->
  reset self = agent.
Proof. intros ->%init_fresh. reflexivity. Qed.

(** ** The test for a PDF name *)

(** X17: a name passes the test [name.lower().endswith('.pdf')], the one
    upload, status, reset and load_documents apply, exactly when it ends in
    four characters that are '.pdf' once lowered: '.pdf', '.PDF', '.Pdf' and
    so on; the name '.pdf' itself passes, the name 'pdf' does not. *)
Theorem is_pdf_iff name :
  is_pdf name = true <->
  exists stem ext, name = stem +:+ ext /\ Py.lower ext = ".pdf".
Proof.
  unfold is_pdf. rewrite endswith_spec. split.
  - intros [p (x & y & -> & _ & Hy)%lower_app_inv]. eauto.
  - intros (stem & ext & -> & Hext). exists (Py.lower stem).
    rewrite lower_app, Hext. reflexivity.
Qed.

(** ** Upload and chat: what they leave alone *)

Section Frames.

Implicit Types (s : Server) (w : World).

(** X18: an upload changes the agent only when it is answered 200, and then
    only its vector store; it leaves the server as a whole untouched unless
    it is answered 200 or 500; and the one path whose content it can change
    is the one it writes the uploaded bytes to: the node that the PDFs
    directory joined with the filename names, which for a plain filename is
    that path as it is written. *)
Theorem upload_pdf_effect w file s :
  let r := serve (upload_pdf w file) s in
  ((exists body, fst r = Success body) \/ my_rag_agent (snd r) = my_rag_agent s)
  /\ (snd r = s \/ status_code (fst r) = 200 \/ status_code (fst r) = 500)
  /\ chat_history <$> my_rag_agent (snd r) = chat_history <$> my_rag_agent s
  /\ (forall p, files (snd r) !! p <> files s !! p ->
        exists name,
          filename file = Some name
          /\ os.resolve (files s) (os.path_join (pdfs_dir s) name) = inr p
          /\ (os.plain name = true -> p = os.path_join (pdfs_dir s) name)
          /\ files (snd r) !! p = Some (File (file_bytes file))).
Proof.
  assert (Hfiles : forall name k p,
            is_pdf name = true ->
            os.resolve (files s) (os.path_join (pdfs_dir s) name) = inr k ->
            <[k := File (file_bytes file)]> (files s) !! p <> files s !! p ->
            os.resolve (files s) (os.path_join (pdfs_dir s) name) = inr p
            /\ (os.plain name = true -> p = os.path_join (pdfs_dir s) name)
            /\ <[k := File (file_bytes file)]> (files s) !! p
               = Some (File (file_bytes file))).
  { intros name k p Hn Hres Hne.
    destruct (decide (k = p)) as [<-|Hp].
    - split; [exact Hres|]. split; [|apply lookup_insert_eq].
      intros Hplain. apply (resolve_entry (files s) (pdfs_dir s) name k);
        [apply pdfs_dir_normal | apply is_pdf_ordinary; assumption | exact Hres].
    - rewrite lookup_insert_ne in Hne by exact Hp. contradiction. }
  destruct (upload_pdf_cases w file s)
    as [(c & d & ->) | [(agent & name & k & d & Ha & Hf & Hn & Hres & _ & ->)
                        | (agent & name & k & chunks & body
                           & Ha & Hf & Hn & Hres & _ & _ & ->)]];
    cbn [fst snd my_rag_agent files set_agent set_files status_code].
  - split; [right; reflexivity|]. split; [left; reflexivity|].
    split; [reflexivity|]. intros p Hp. contradiction.
  - split; [right; reflexivity|]. split; [tauto|]. split; [reflexivity|].
    intros p Hp. exists name. split; [exact Hf | apply (Hfiles name k); assumption].
  - split; [left; eauto|]. split; [tauto|]. split; [rewrite Ha; reflexivity|].
    intros p Hp. exists name. split; [exact Hf | apply (Hfiles name k); assumption].
Qed.

(** X19: a chat reads the files and the vector store and writes neither: the
    files, the key and the chunks of the store are after the request what
    they were before, and unless the request is answered 200 the server as a
    whole is. *)
Theorem chat_frame w msg s :
  let r := serve (chat w msg) s in
  files (snd r) = files s
  /\ GEMINI_API_KEY (snd r) = GEMINI_API_KEY s
  /\ vector_store <$> my_rag_agent (snd r) = vector_store <$> my_rag_agent s
  /\ ((exists body, fst r = Success body) \/ snd r = s).
Proof.
  destruct (chat_cases w msg s) as [(c & d & ->) | (agent & a & Ha & ->)];
    cbn [fst snd]; [tauto|].
  cbn [files GEMINI_API_KEY my_rag_agent set_agent]. rewrite Ha.
  repeat split. left. eauto.
Qed.

Lemma keys_insert_existing (fs : gmap string node) p x y :
  fs !! p = Some y ->
  (map_to_list (<[p := x]> fs)).*1 ≡ₚ (map_to_list fs).*1.
Proof.
  intros Hy. rewrite <- (insert_delete_eq fs p x).
  rewrite (map_to_list_insert (delete p fs) p x) by apply lookup_delete_eq.
  rewrite <- (insert_delete_id fs p y Hy) at 2.
  rewrite (map_to_list_insert (delete p fs) p y) by apply lookup_delete_eq.
  reflexivity.
Qed.

Lemma listdir_insert_existing d (fs : gmap string node) p x :
  is_Some (fs !! p) -> os.listdir d (<[p := x]> fs) ≡ₚ os.listdir d fs.
Proof.
  intros [y Hy]. unfold os.listdir. rewrite (keys_insert_existing fs p x y Hy).
  reflexivity.
Qed.

(** X20: a successful upload under a plain name leaves the uploaded bytes at
    that name in the PDFs directory, and the number of PDF documents the
    status reports is one more than before when the name is new, and the
    same as before when the upload replaces a file of that name. *)
Theorem upload_pdf_count w file s name body s' :
  serve (upload_pdf w file) s = (Success body, s') ->
  filename file = Some name ->
  os.plain name = true ->
  files s' !! os.path_join (pdfs_dir s') name = Some (File (file_bytes file))
  /\ pdf_count s'
     = pdf_count s
       + (if os.path_exists (os.path_join (pdfs_dir s) name) (files s)
          then 0 else 1).
Proof.
  intros (agent & name' & agent' & k & Ha & Hf & Hn & _ & Hres & _ & _ & -> & _)
    %upload_pdf_success_inv Hf' Hplain.
  rewrite Hf in Hf'. injection Hf' as ->.
  pose proof (is_pdf_ordinary name Hplain Hn) as Hord.
  apply resolve_entry in Hres; [subst k | apply pdfs_dir_normal | exact Hord].
  unfold pdf_count.
  change (pdfs_dir (set_agent (set_files s _) agent')) with (pdfs_dir s).
  cbn [files set_agent set_files].
  split; [apply lookup_insert_eq|].
  rewrite (path_exists_entry (files s) (pdfs_dir s) name (pdfs_dir_normal s) Hord).
  unfold len_names, filter_pdf.
  destruct (files s !! os.path_join (pdfs_dir s) name) as [x|] eqn:Hp.
  - rewrite (listdir_insert_existing (pdfs_dir s) (files s)) by eauto. lia.
  - rewrite (listdir_insert_new (pdfs_dir s) (files s) name _ Hplain Hp).
    rewrite filter_cons_True by exact Hn. cbn [length]. lia.
Qed.

End Frames.

(** ** What the handlers raise *)

Lemma htry_http {A} (body : H A) (handler : exn -> exn) s e :
  (forall e', is_http (handler e') = true) ->
  fst (htry body handler s) = inl e -> is_http e = true.
Proof.
  intros Hh. unfold htry. destruct (body s) as [[e'|a] s']; cbn [fst];
    [|discriminate].
  intros [= <-]. apply Hh.
Qed.

Lemma htry_reraising_http_http {A} (body : H A) (handler : exn -> exn) s e :
  (forall e', is_http (handler e') = true) ->
  fst (htry_reraising_http body handler s) = inl e -> is_http e = true.
Proof.
  intros Hh. unfold htry_reraising_http.
  destruct (body s) as [[e'|a] s']; cbn [fst]; [|discriminate].
  intros [= <-]. destruct (is_http e') eqn:He'; [exact He' | apply Hh].
Qed.

(** X21: whatever goes wrong inside them, the handlers of /upload-pdf,
    /chat, /status and /reset let nothing out but an HTTPException: the
    response always carries the handler's own status code and detail, and
    the application-wide handler for status 500 never gets to answer for
    them. *)
Theorem handlers_raise_http_only w s e :
  (forall file, fst (upload_pdf w file s) = inl e -> is_http e = true)
  /\ (forall msg, fst (chat w msg s) = inl e -> is_http e = true)
  /\ (fst (get_status s) = inl e -> is_http e = true)
  /\ (fst (reset_documents w s) = inl e -> is_http e = true).
Proof.
  repeat split; intros;
    first [ eapply htry_reraising_http_http; [|eassumption]
          | eapply htry_http; [|eassumption] ];
    intros e'; reflexivity.
Qed.

(** ** The further properties on the samples *)

Lemma sample_listing :
  os.listdir (pdfs_dir Sample.server) (files Sample.server)
  = ["a.pdf"; "notes.txt"; "B.PDF"].
Proof. vm_compute. reflexivity. Qed.

(** The SDK fails during a reset of the sample server: the PDF files are
    gone, the old agent is still there. *)
Lemma reset_not_atomic_witness :
  exists s',
    serve (reset_documents Scenario.world_no_sdk) Sample.server
      = (Failure 500
           "Failed to reset documents: RAG Agent initialization failed: API key not valid",
         s')
    /\ my_rag_agent s' = Some Sample.agent
    /\ pdf_count s' = 0.
Proof.
  assert (Hfiles : forall n,
            n ∈ os.listdir (pdfs_dir Sample.server) (files Sample.server) ->
            is_pdf n = true ->
            files Sample.server !! os.path_join (pdfs_dir Sample.server) n
            <> Some Dir).
  { intros n Hn _. rewrite sample_listing in Hn.
    repeat (apply elem_of_cons in Hn as [->|Hn]; [vm_compute; discriminate|]).
    apply elem_of_nil in Hn. contradiction. }
  destruct (reset_not_atomic Scenario.world_no_sdk Sample.server Sample.agent "key"
              (Exception "RAG Agent initialization failed: API key not valid")
              eq_refl Hfiles eq_refl eq_refl)
    as (s' & Hserve & Hagent & Hcount & _).
  exists s'. split; [exact Hserve|]. split; [exact Hagent | exact Hcount].
Defined.

Lemma notes_is_no_pdf_entry :
  ~ pdf_entry_path (pdfs_dir Sample.server) "/app/pdfs/notes.txt".
Proof.
  intros (n & Hplain & Hpdf & Heq).
  pose proof (entry_name_join (pdfs_dir Sample.server) n Hplain) as Hn.
  rewrite <- Heq in Hn. vm_compute in Hn. injection Hn as <-.
  vm_compute in Hpdf. discriminate Hpdf.
Qed.

(** The text file of the sample server survives a reset. *)
Lemma reset_documents_frame_witness :
  ~ pdf_entry_path (pdfs_dir Sample.server) "/app/pdfs/notes.txt"
  /\ files (snd (serve (reset_documents Sample.world) Sample.server))
       !! "/app/pdfs/notes.txt"
     = Some (File []).
Proof.
  split; [exact notes_is_no_pdf_entry|].
  rewrite (reset_documents_frame Sample.world Sample.server "/app/pdfs/notes.txt"
             notes_is_no_pdf_entry).
  vm_compute. reflexivity.
Defined.

(** A directory named scans.pdf makes every reset fail. *)
Lemma reset_documents_succeeds_iff_witness :
  my_rag_agent Scenario.server_with_dir = Some Sample.agent
  /\ files Scenario.server_with_dir !! "/app/pdfs/scans.pdf" = Some Dir
  /\ ~ exists body s',
         serve (reset_documents Sample.world) Scenario.server_with_dir
         = (Success body, s').
Proof.
  split; [reflexivity|]. split; [vm_compute; reflexivity|].
  intros Hsucc.
  pose proof (proj1 (reset_documents_succeeds_iff Sample.world
                       Scenario.server_with_dir Sample.agent "key"
                       {| gemini_api_key := "key"; vector_store := [];
                          chat_history := [] |}
                       eq_refl eq_refl eq_refl) Hsucc) as Hfiles.
  apply (Hfiles "scans.pdf"); [|reflexivity | vm_compute; reflexivity].
  apply elem_of_listdir. split; [reflexivity|]. vm_compute. eauto.
Defined.

(** The sample server, started afresh, after one chat. *)
Lemma history_is_turns_witness :
  let s := run [(Sample.world, POST_chat "hi")]
               (startup Sample.world (Some "key") Sample.app Sample.disk) in
  let agent := {| gemini_api_key := "key"; vector_store := [];
                  chat_history := [HumanMessage "hi"; AIMessage "It says hello."] |} in
  my_rag_agent s = Some agent
  /\ turns (chat_history agent)
  /\ (length (chat_history agent) <= 20)%nat.
Proof.
  intros s agent.
  assert (H : my_rag_agent s = Some agent) by (vm_compute; reflexivity).
  exact (conj H (history_is_turns _ _ _ _ _ _ H)).
Defined.

Lemma agent_key_is_server_key_witness :
  let s := run [(Sample.world, POST_upload_pdf (Sample.upload "c.pdf" Sample.hello));
                (Sample.world, DELETE_reset)]
               (startup Sample.world (Some "key") Sample.app Sample.disk) in
  let agent := {| gemini_api_key := "key"; vector_store := []; chat_history := [] |} in
  my_rag_agent s = Some agent
  /\ GEMINI_API_KEY s = Some "key"
  /\ key_value (Some "key") = Some (gemini_api_key agent).
Proof.
  intros s agent.
  assert (H : my_rag_agent s = Some agent) by (vm_compute; reflexivity).
  exact (conj H (agent_key_is_server_key _ _ _ _ _ _ H)).
Defined.

(** Started without key, the server answers 503 even after a reset was
    tried. *)
Lemma no_agent_never_recovers_witness :
  my_rag_agent (startup Sample.world None Sample.app Sample.disk) = None
  /\ status_code
       (fst (serve (chat Sample.world "hi")
               (run [(Sample.world, DELETE_reset)]
                    (startup Sample.world None Sample.app Sample.disk)))) = 503.
Proof.
  split; [reflexivity|].
  exact (proj1 (proj2 (no_agent_never_recovers Sample.world None Sample.app Sample.disk
                         [(Sample.world, DELETE_reset)] Sample.world
                         (Sample.upload "c.pdf" Sample.hello) "hi" eq_refl))).
Defined.

(** A full history stays at twenty entries. *)
Lemma ask_history_length_witness :
  exists a self',
    result (ask Sample.world Sample.talkative "more?") = inr (a, self')
    /\ length (chat_history Sample.talkative) = 20%nat
    /\ length (chat_history self') = 20%nat.
Proof.
  destruct (result (ask Sample.world Sample.talkative "more?"))
    as [e|[a self']] eqn:H; [vm_compute in H; discriminate H|].
  exists a, self'. split; [reflexivity|]. split; [reflexivity|].
  rewrite (ask_history_length Sample.world Sample.talkative "more?" a self' H).
  reflexivity.
Defined.

(** With the embedding service down, loading a good file raises the second
    kind of error. *)
Lemma load_documents_errors_witness :
  load_documents Scenario.world_no_embedding Sample.disk Sample.agent
    ["/app/pdfs/a.pdf"]
  = inl (Exception "Document processing failed: embedding quota exceeded")
  /\ mjoin (pages_of Scenario.world_no_embedding Sample.disk
              <$> ["/app/pdfs/a.pdf"]) <> [].
Proof.
  assert (H : load_documents Scenario.world_no_embedding Sample.disk Sample.agent
                ["/app/pdfs/a.pdf"]
              = inl (Exception "Document processing failed: embedding quota exceeded"))
    by (vm_compute; reflexivity).
  split; [exact H|].
  destruct (load_documents_errors _ _ _ _ _ H) as [(Hfail & _) | (m & _ & Hne)];
    [vm_compute in Hfail; discriminate Hfail | exact Hne].
Defined.

Lemma reset_is_reconstruction_witness :
  _init_ Sample.world (gemini_api_key Sample.agent)
  = inr {| gemini_api_key := "key"; vector_store := []; chat_history := [] |}
  /\ reset Sample.agent
     = {| gemini_api_key := "key"; vector_store := []; chat_history := [] |}.
Proof.
  split; [reflexivity|].
  exact (reset_is_reconstruction Sample.world Sample.agent _ eq_refl).
Defined.

(** A new name makes three documents of two; the same name again leaves
    three. *)
Lemma upload_pdf_count_witness :
  let file := Sample.upload "c.pdf" Sample.hello in
  let once := snd (serve (upload_pdf Sample.world file) Sample.server) in
  let twice := snd (serve (upload_pdf Sample.world file) once) in
  pdf_count Sample.server = 2
  /\ pdf_count once = 3
  /\ pdf_count twice = 3.
Proof.
  intros file once twice.
  assert (H1 : serve (upload_pdf Sample.world file) Sample.server
               = (Success {| upload_message := "Successfully uploaded and processed c.pdf";
                             upload_filename := "c.pdf";
                             upload_status := "success" |}, once))
    by (vm_compute; reflexivity).
  assert (H2 : serve (upload_pdf Sample.world file) once
               = (Success {| upload_message := "Successfully uploaded and processed c.pdf";
                             upload_filename := "c.pdf";
                             upload_status := "success" |}, twice))
    by (vm_compute; reflexivity).
  assert (H0 : pdf_count Sample.server = 2) by (vm_compute; reflexivity).
  destruct (upload_pdf_count _ _ _ "c.pdf" _ _ H1 eq_refl eq_refl) as [_ Hc1].
  destruct (upload_pdf_count _ _ _ "c.pdf" _ _ H2 eq_refl eq_refl) as [_ Hc2].
  split; [exact H0|]. split.
  - rewrite Hc1, H0. vm_compute. reflexivity.
  - rewrite Hc2, Hc1, H0. vm_compute. reflexivity.
Defined.

(** A reset and an upload under the name of the directory scans.pdf leave
    the directory where it is. *)
Lemma directories_stay_witness :
  let reqs := [(Sample.world, DELETE_reset);
               (Sample.world,
                POST_upload_pdf (Sample.upload "scans.pdf" Sample.hello))] in
  files Scenario.server_with_dir !! "/app/pdfs/scans.pdf" = Some Dir
  /\ files (run reqs Scenario.server_with_dir) !! "/app/pdfs/scans.pdf"
     = Some Dir.
Proof.
  intros reqs.
  assert (H : files Scenario.server_with_dir !! "/app/pdfs/scans.pdf" = Some Dir)
    by (vm_compute; reflexivity).
  split; [exact H|].
  exact (directories_stay reqs Scenario.server_with_dir "/app/pdfs/scans.pdf" H).
Defined.
